(** * ChartGenerator (charts.py) and its page (app.py)

    A shallow embedding of the [ChartGenerator] class of [charts.py]: the
    loader, the column analyzer, the keyword classifier, the column
    selector, the template-based code generator and the executor, and of
    the Streamlit script of [app.py], followed by the properties of the
    specification that concern them.

    Modelling conventions.
    - A Python [str] is the list of its code points. What [str.lower] and
      the class [\w] of [re] do is decided by the Unicode tables of the
      interpreter: they are the two fields of the class [Unicode], and
      every definition and theorem below is made for an arbitrary instance
      of it. [UnicodeAscii] states what the tables do below code point 128;
      it is assumed only where a statement names a literal keyword.
      [latin1] is the instance for text below code point 256, used to run
      the definitions on examples.
    - Exceptions are values of [exn], which holds the classes derived from
      [Exception] that the program meets; [except Exception] catches all
      of them. A method is a function from the generator's state to an
      outcome and the state it leaves behind.
    - [pandas] and [matplotlib] are outside the repository: the two file
      readers and [exec] are section variables. A [DataFrame] is a list of
      labelled, typed columns. A label is a [str] or any other hashable
      object ([pd.read_excel] returns an [int] for a numeric header); the
      labels of one table are pairwise different, as the readers produce
      them (a repeated header is renamed on reading).
    - [exec] runs a script that holds the request unescaped, with the
      stored table bound to [data]: it returns the variables the script
      bound or the exception it raised, and the table as the script left
      it. What a script can do beyond that (end the interpreter, rebind a
      module's globals) is not modelled, and no statement below is made
      about a call that reaches [exec].
    - The page of [app.py] is embedded as one run of its script: what the
      Streamlit widgets return is the run's input, the display calls it
      makes are its output, and a display call does not raise. *)

From Stdlib Require Import Ascii String ZArith NArith Lia Bool.
From stdpp Require Import base option list gmap strings pretty sorting.

Set Default Proof Using "Type".
Local Open Scope bool_scope.

(* ================================================================= *)
(** ** Python text *)

(** A character is its code point. *)
Abbreviation char := N.
Abbreviation str := (list N).

(** The code points that a sequence of UTF-8 bytes encodes (a byte that
    begins no well-formed sequence is kept as it is). *)
Fixpoint utf8_decode (bytes : list N) : str :=
  match bytes with
  | [] => []
  | b :: rest =>
      if (b <? 192)%N then b :: utf8_decode rest
      else if (b <? 224)%N then
        match rest with
        | c1 :: rest1 => ((b - 192) * 64 + (c1 - 128))%N :: utf8_decode rest1
        | [] => [b]
        end
      else if (b <? 240)%N then
        match rest with
        | c1 :: c2 :: rest2 =>
            ((b - 224) * 4096 + (c1 - 128) * 64 + (c2 - 128))%N :: utf8_decode rest2
        | _ => b :: rest
        end
      else
        match rest with
        | c1 :: c2 :: c3 :: rest3 =>
            ((b - 240) * 262144 + (c1 - 128) * 4096 + (c2 - 128) * 64 + (c3 - 128))%N
            :: utf8_decode rest3
        | _ => b :: rest
        end
  end.

(** A string literal: the text that the bytes of the literal encode. *)
Definition lit (s : string) : str := utf8_decode (N_of_ascii <$> list_ascii_of_string s).
Arguments lit : simpl never.

(** [s.lower()] and membership in the class [\w] of [re], for [str]
    patterns: both are Unicode-aware. [lower] acts on the whole string: in
    full Unicode it is neither character by character nor length
    preserving. *)
Class Unicode : Type := { lower : str → str; is_word : char → bool }.

Definition between (lo hi c : N) : bool := (lo <=? c)%N && (c <=? hi)%N.

(** [\w] below 128: letters, digits and the underscore. *)
Definition ascii_is_word (c : char) : bool :=
  between 97 122 c || between 65 90 c || between 48 57 c || (c =? 95)%N.

Definition ascii_lower (c : char) : char :=
  if between 65 90 c then (c + 32)%N else c.

Definition is_ascii (s : str) : Prop := Forall (λ c, (c < 128)%N) s.

(** What every version of the tables does on ASCII text. *)
Class UnicodeAscii `{Unicode} : Prop :=
  { lower_ascii : ∀ s, is_ascii s → lower s = ascii_lower <$> s;
    is_word_ascii : ∀ c, (c < 128)%N → is_word c = ascii_is_word c }.

(** The tables below code point 256 (Latin-1): the letters, the
    superscript digits and the fractions are word characters, and the
    capital letters from U+00C0 to U+00DE, the multiplication sign apart,
    have their lower-case form 32 places further. *)
Definition latin1_is_word (c : char) : bool :=
  ascii_is_word c || (c =? 170)%N || between 178 179 c || (c =? 181)%N ||
  between 185 186 c || between 188 190 c || between 192 214 c ||
  between 216 246 c || between 248 255 c.

Definition latin1_lower (c : char) : char :=
  if between 65 90 c || between 192 214 c || between 216 222 c then (c + 32)%N else c.

Definition latin1 : Unicode :=
  {| lower := fmap latin1_lower; is_word := latin1_is_word |}.

Fixpoint startswith (s p : str) : bool :=
  match p, s with
  | [], _ => true
  | a :: p', b :: s' => if decide (a = b) then startswith s' p' else false
  | _ :: _, [] => false
  end.

(** [s.endswith(suffix)] *)
Definition endswith (s suffix : str) : bool := startswith (rev s) (rev suffix).

(* ================================================================= *)
(** ** The fragment of [re] the source uses

    Every pattern of [charts.py] is built from the word boundary [\b],
    literal text (the keywords, and [re.escape] of a column label),
    alternation and concatenation. [re_match] is the backtracking matcher
    at one position, [search] tries every start position from the left, as
    [re.search] does. *)

Module Re.

Inductive pattern : Type :=
| Boundary
| Literal (s : str)
| Alt (p q : pattern)
| Seq (p q : pattern).

(** A position in the subject: the character just behind it, if any, and
    the text ahead of it. *)
Record cursor : Type := Cursor { behind : option char; ahead : str }.

Section Matcher.

Context `{Unicode}.

Definition word_at (o : option char) : bool :=
  match o with Some a => is_word a | None => false end.

(** [\b]: exactly one of the two neighbours is a word character. *)
Definition boundary (c : cursor) : bool :=
  xorb (word_at (behind c)) (word_at (head (ahead c))).

Fixpoint eat (s : str) (c : cursor) : option cursor :=
  match s with
  | [] => Some c
  | a :: s' =>
      match ahead c with
      | b :: rest => if decide (a = b) then eat s' (Cursor (Some b) rest) else None
      | [] => None
      end
  end.

Fixpoint re_match (p : pattern) (c : cursor) : list cursor :=
  match p with
  | Boundary => if boundary c then [c] else []
  | Literal s => match eat s c with Some c' => [c'] | None => [] end
  | Alt p q => re_match p c ++ re_match q c
  | Seq p q => c' ← re_match p c; re_match q c'
  end.

Definition matches_at (p : pattern) (c : cursor) : bool :=
  match re_match p c with [] => false | _ :: _ => true end.

Fixpoint scan (p : pattern) (prev : option char) (s : str) : bool :=
  matches_at p (Cursor prev s) ||
  match s with
  | [] => false
  | a :: rest => scan p (Some a) rest
  end.

(** [re.search(p, s)] as a truth value ([None] is false, a match is true). *)
Definition search (p : pattern) (s : str) : bool := scan p None s.

Fixpoint scan_start (p : pattern) (prev : option char) (s : str) (i : nat) : option nat :=
  if matches_at p (Cursor prev s) then Some i
  else match s with
       | [] => None
       | a :: rest => scan_start p (Some a) rest (S i)
       end.

(** [re.search(p, s).start()]: where the leftmost match begins. *)
Definition search_start (p : pattern) (s : str) : option nat := scan_start p None s 0.

End Matcher.

(** [r'\b' + re.escape(k) + r'\b'] *)
Definition word (k : str) : pattern := Seq Boundary (Seq (Literal k) Boundary).

(** [r'\b(k1|k2)\b'] *)
Definition word2 (k1 k2 : str) : pattern :=
  Seq Boundary (Seq (Alt (Literal k1) (Literal k2)) Boundary).

End Re.

(* ================================================================= *)
(** ** Column labels *)

(** A label of a table: a [str], or an object of another type that has
    no method [lower] (a number, a date, a bool), recorded by the name of
    its type and by what [str] and [repr] give for it: the header 2023 of a
    sheet is [NonStr "int" "2023" "2023"]. Labels are compared as these
    records; [pandas] compares labels with [==], under which an [int] and a
    [float] or [bool] of the same value are one label, so a table with two
    such labels is outside the model. *)
Inductive label : Type :=
| Str (s : str)
| NonStr (type_name text repr : str).

#[global] Instance label_eq_dec : EqDecision label.
Proof. solve_decision. Defined.

#[global] Instance label_countable : Countable label.
Proof.
  refine (inj_countable'
            (λ l, match l with
                  | Str s => inl s
                  | NonStr t x r => inr (t, x, r)
                  end)
            (λ v, match v with
                  | inl s => Str s
                  | inr (t, x, r) => NonStr t x r
                  end) _).
  by intros [].
Defined.

Definition is_str (col : label) : Prop :=
  match col with Str _ => True | NonStr _ _ _ => False end.

(** [str(col)], which is also what [format] and an f-string insert. *)
Definition label_str (col : label) : str :=
  match col with
  | Str s => s
  | NonStr _ text _ => text
  end.

(** [repr(col)]; for a [str] that holds no quote, backslash or control
    character. *)
Definition label_repr (col : label) : str :=
  match col with
  | Str s => lit "'" ++ s ++ lit "'"
  | NonStr _ _ repr => repr
  end.

(* ================================================================= *)
(** ** Exceptions and outcomes *)

Inductive exn : Type :=
| ValueError (msg : str)
| AttributeError (msg : str)
| IndexError (msg : str)
| KeyError (key : label)
| ReaderError (msg : str).

(** [str(e)]: the message, and for a [KeyError] the [repr] of its key. *)
Definition exn_str (e : exn) : str :=
  match e with
  | ValueError m | AttributeError m | IndexError m | ReaderError m => m
  | KeyError k => label_repr k
  end.

Inductive outcome (A : Type) : Type :=
| Ok (a : A)
| Raise (e : exn).
Arguments Ok {A} a.
Arguments Raise {A} e.

Definition is_ok {A} (o : outcome A) : bool :=
  match o with Ok _ => true | Raise _ => false end.

(** The error kinds of the specification, as the exceptions the source
    raises for them. *)
Definition NoDataError : exn :=
  ValueError (lit "No data loaded. Please load data first.").
Definition DataLoadError (cause : str) : exn :=
  ValueError (lit "Error loading file: " ++ cause).
Definition UnsupportedChartTypeError (chart_type : str) : exn := KeyError (Str chart_type).

(** Reading an attribute that an object of the named type does not have. *)
Definition no_attribute (type_name : str) (attr : string) : exn :=
  AttributeError (lit "'" ++ type_name ++ lit "' object has no attribute '" ++
                  lit attr ++ lit "'").

Definition none_has_no (attr : string) : exn := no_attribute (lit "NoneType") attr.

(** [l[i]] on a Python list. *)
Definition list_getitem {A} (l : list A) (i : nat) : outcome A :=
  match l !! i with
  | Some x => Ok x
  | None => Raise (IndexError (lit "list index out of range"))
  end.

(** [index[i]] on a pandas [Index]. *)
Definition index_getitem {A} (l : list A) (i : nat) : outcome A :=
  match l !! i with
  | Some x => Ok x
  | None =>
      Raise (IndexError (lit "index " ++ lit (pretty i) ++
                         lit " is out of bounds for axis 0 with size " ++
                         lit (pretty (length l))))
  end.

(** [d[k]] on a dict; [key] gives the key as the object the [KeyError]
    carries. *)
Definition dict_getitem {K V} `{Countable K} (key : K → label) (d : gmap K V) (k : K)
  : outcome V :=
  match d !! k with
  | Some v => Ok v
  | None => Raise (KeyError (key k))
  end.

(** [[x for x in l if cond(x)]]: the condition is evaluated on the
    elements in order, and the first exception it raises ends the
    comprehension. *)
Fixpoint comprehension {A} (cond : A → outcome bool) (l : list A) : outcome (list A) :=
  match l with
  | [] => Ok []
  | x :: rest =>
      match cond x with
      | Raise e => Raise e
      | Ok b =>
          match comprehension cond rest with
          | Raise e => Raise e
          | Ok found => Ok (if b then x :: found else found)
          end
      end
  end.

(* ================================================================= *)
(** ** Tables *)

Inductive Dtype : Type := Int64 | Float64 | Bool | Object | Datetime64.

(** [str(dtype)] *)
Definition dtype_str (t : Dtype) : str :=
  match t with
  | Int64 => lit "int64"
  | Float64 => lit "float64"
  | Bool => lit "bool"
  | Object => lit "object"
  | Datetime64 => lit "datetime64[ns]"
  end.

(** [pd.api.types.is_numeric_dtype] *)
Definition is_numeric_dtype (t : Dtype) : bool :=
  match t with
  | Int64 | Float64 | Bool => true
  | Object | Datetime64 => false
  end.

(** What the loader is given: a path, or an uploaded file object. *)
Record UploadedFile : Type := { upload_name : str; upload_bytes : str }.

Inductive source : Type :=
| FilePath (p : str)
| Buffer (f : UploadedFile).

Section Generator.

Context {Cell : Type}.

Record Series : Type := { name : label; dtype : Dtype; values : list Cell }.

Abbreviation DataFrame := (list Series).

(** [d.columns] *)
Definition columns (d : DataFrame) : list label := name <$> d.

(** [len(d)]: the number of rows. *)
Definition df_len (d : DataFrame) : nat :=
  match d with
  | [] => 0
  | s :: _ => length (values s)
  end.

(** [d[col]] *)
Definition df_getitem (d : DataFrame) (col : label) : outcome Series :=
  match list_find (λ s, name s = col) d with
  | Some (_, s) => Ok s
  | None => Raise (KeyError col)
  end.

(** [s.iloc[0]] *)
Definition iloc0 (s : Series) : outcome Cell :=
  match values s with
  | v :: _ => Ok v
  | [] => Raise (IndexError (lit "single positional indexer is out-of-bounds"))
  end.

(** [d.head(n)]: the first [n] rows, or all but the last [-n] for [n < 0]. *)
Definition df_head (n : Z) (d : DataFrame) : DataFrame :=
  let keep := if (0 <=? n)%Z then Z.to_nat n else df_len d - Z.to_nat (- n) in
  (λ s, {| name := name s; dtype := dtype s; values := take keep (values s) |}) <$> d.

Record ColumnInfo : Type :=
  { info_dtype : str; info_sample : option Cell; info_numeric : bool }.

(** The instance attributes [self.data] and [self.column_info]. *)
Record ChartGenerator : Type :=
  { data : option DataFrame; column_info : gmap label ColumnInfo }.

(** [ChartGenerator()] *)
Definition init : ChartGenerator := {| data := None; column_info := ∅ |}.

(* ----------------------------------------------------------------- *)
(** *** Methods: state and exceptions *)

Definition method (A : Type) : Type := ChartGenerator → outcome A * ChartGenerator.

Definition ret {A} (a : A) : method A := λ g, (Ok a, g).

Definition raise {A} (e : exn) : method A := λ g, (Raise e, g).

Definition bind {A B} (m : method A) (k : A → method B) : method B :=
  λ g, match m g with
       | (Ok a, g') => k a g'
       | (Raise e, g') => (Raise e, g')
       end.

(** [try: body  except Exception as e: handler(e)] *)
Definition try_except {A} (body : method A) (handler : exn → method A) : method A :=
  λ g, match body g with
       | (Ok a, g') => (Ok a, g')
       | (Raise e, g') => handler e g'
       end.

(** A computation that touches no attribute. *)
Definition call {A} (o : outcome A) : method A := λ g, (o, g).

Definition set_data (d : DataFrame) : method unit :=
  λ g, (Ok tt, {| data := Some d; column_info := column_info g |}).

Definition set_column_info (m : gmap label ColumnInfo) : method unit :=
  λ g, (Ok tt, {| data := data g; column_info := m |}).

(** [self.data.attr]: an [AttributeError] while [self.data] is [None]. *)
Definition self_data (attr : string) : method DataFrame :=
  λ g, match data g with
       | Some d => (Ok d, g)
       | None => (Raise (none_has_no attr), g)
       end.

Definition self_column_info : method (gmap label ColumnInfo) := λ g, (Ok (column_info g), g).

End Generator.

Arguments Series : clear implicits.
Arguments ColumnInfo : clear implicits.
Arguments ChartGenerator : clear implicits.
Arguments method : clear implicits.

Declare Scope method_scope.
Delimit Scope method_scope with method.
Notation "'let*' x ':=' m 'in' k" :=
  (bind m (λ x, k))
  (at level 10, x name, m at level 100, k at level 200) : method_scope.
Notation "m1 '>>' m2" :=
  (bind m1 (λ _, m2))
  (at level 100, m2 at level 200, right associativity) : method_scope.

(* ================================================================= *)
(** ** The chart-type templates and [str.format] *)

(** The part of [str.format] the templates exercise: text copied as it
    is, and named replacement fields [{name}] looked up among the keyword
    arguments. [field] holds the name being read, last character first. *)
Fixpoint format_go (t : str) (field : option str) (kwargs : gmap str str) : outcome str :=
  match t with
  | [] =>
      match field with
      | None => Ok []
      | Some _ => Raise (ValueError (lit "expected '}' before end of string"))
      end
  | c :: t' =>
      match field with
      | None =>
          if (c =? 123)%N then format_go t' (Some []) kwargs
          else if (c =? 125)%N then
            Raise (ValueError (lit "Single '}' encountered in format string"))
          else match format_go t' None kwargs with
               | Ok r => Ok (c :: r)
               | Raise e => Raise e
               end
      | Some f =>
          if (c =? 125)%N then
            match kwargs !! rev f with
            | Some v =>
                match format_go t' None kwargs with
                | Ok r => Ok (v ++ r)
                | Raise e => Raise e
                end
            | None => Raise (KeyError (Str (rev f)))
            end
          else format_go t' (Some (c :: f)) kwargs
      end
  end.

(** [t.format(x=..., y=..., ...)] *)
Definition format (t : str) (kwargs : gmap str str) : outcome str := format_go t None kwargs.

(** [c.isspace()] *)
Definition is_space (c : char) : bool :=
  between 9 13 c || between 28 32 c || (c =? 133)%N || (c =? 160)%N || (c =? 5760)%N ||
  between 8192 8202 c || between 8232 8233 c || (c =? 8239)%N || (c =? 8287)%N ||
  (c =? 12288)%N.

Fixpoint lstrip (s : str) : str :=
  match s with
  | a :: s' => if is_space a then lstrip s' else s
  | [] => []
  end.

(** [s.strip()] *)
Definition strip (s : str) : str := rev (lstrip (rev (lstrip s))).

Definition bar_template : str := strip (lit "
fig, ax = plt.subplots(figsize=(10,6))
ax.bar(data['{x}'], data['{y}'])
ax.set_title('{title}')
ax.set_xlabel('{x_label}')
ax.set_ylabel('{y_label}')
plt.xticks(rotation=45)
plt.tight_layout()
# Removed the return statement
").

Definition pie_template : str := strip (lit "
fig, ax = plt.subplots(figsize=(8,8))
data.groupby('{x}')['{y}'].sum().plot.pie(autopct='%1.1f%%', ax=ax)
ax.set_title('{title}')
ax.set_ylabel('')
# Removed the return statement
").

Definition line_template : str := strip (lit "
fig, ax = plt.subplots(figsize=(10,6))
ax.plot(data['{x}'], data['{y}'])
ax.set_title('{title}')
ax.set_xlabel('{x_label}')
ax.set_ylabel('{y_label}')
ax.grid(True)
# Removed the return statement
").

Definition templates : gmap str str :=
  <[lit "bar" := bar_template]>
    (<[lit "pie" := pie_template]>
       (<[lit "line" := line_template]> ∅)).

(* ================================================================= *)
(** ** The methods of [ChartGenerator] *)

(** [determine_chart_type] reads no attribute of the generator: it is a
    function of the request alone. *)
Definition determine_chart_type `{Unicode} (request : str) : str :=
  let request := lower request in
  if Re.search (Re.word (lit "pie")) request then lit "pie"
  else if Re.search (Re.word2 (lit "bar") (lit "column")) request then lit "bar"
  else if Re.search (Re.word2 (lit "line") (lit "trend")) request then lit "line"
  else if Re.search (Re.word2 (lit "scatter") (lit "point")) request then lit "scatter"
  else if Re.search (Re.word2 (lit "histogram") (lit "distribution")) request then lit "histogram"
  else lit "bar".

(** The condition of the comprehension that builds [found_cols]:
    [col.lower()] is evaluated first, and only a [str] has the method. *)
Definition col_in_request `{Unicode} (request : str) (col : label) : outcome bool :=
  match col with
  | Str s => Ok (Re.search (Re.word (lower s)) (lower request))
  | NonStr type_name _ _ => Raise (no_attribute type_name "lower")
  end.

(** [[col for col in cols if info[col]['numeric']]] *)
Definition numeric_among {Cell} (info : gmap label (ColumnInfo Cell)) (cols : list label)
  : outcome (list label) :=
  comprehension
    (λ col, match dict_getitem id info col with
            | Ok i => Ok (info_numeric i)
            | Raise e => Raise e
            end) cols.

Section Methods.

Context `{Unicode} {Cell Obj : Type}.

(** [pd.read_csv] and [pd.read_excel]: a table, or the exception raised. *)
Variable read_csv read_excel : source → outcome (list (Series Cell)).

(** [exec(code, globals(), local_vars)] with [data] and [plt] bound: the
    local variables the script leaves or the exception it raised, and the
    table bound to [data] as the script left it. *)
Variable py_exec : str → list (Series Cell) → outcome (gmap str Obj) * list (Series Cell).

Local Open Scope method_scope.
Local Abbreviation Method := (method Cell).

Definition analyze_column (d : list (Series Cell)) (col : label) : Method unit :=
  let* s := call (df_getitem d col) in
  let* sample := (if 0 <? df_len d then
                    let* v := call (iloc0 s) in ret (Some v)
                  else ret None) in
  let* info := self_column_info in
  set_column_info
    (<[col := {| info_dtype := dtype_str (dtype s);
                 info_sample := sample;
                 info_numeric := is_numeric_dtype (dtype s) |}]> info).

(** [for col in cols: body(col)] *)
Fixpoint for_each {A} (cols : list A) (body : A → Method unit) : Method unit :=
  match cols with
  | [] => ret tt
  | col :: rest => body col >> for_each rest body
  end.

Definition _analyze_columns : Method unit :=
  set_column_info ∅ >>
  let* d := self_data "columns" in
  for_each (columns d) (analyze_column d).

Definition load_from (name : str) (src : source) : Method bool :=
  try_except
    ((if endswith name (lit ".csv") then
        let* d := call (read_csv src) in set_data d
      else if endswith name (lit ".xls") || endswith name (lit ".xlsx") then
        let* d := call (read_excel src) in set_data d
      else ret tt) >>
     _analyze_columns >>
     ret true)
    (λ e, raise (ValueError (lit "Error loading file: " ++ exn_str e))).

Definition load_data (file_path : str) : Method bool :=
  load_from file_path (FilePath file_path).

Definition load_data_from_upload (uploaded_file : UploadedFile) : Method bool :=
  load_from (upload_name uploaded_file) (Buffer uploaded_file).

Definition get_column_info : Method (gmap label (ColumnInfo Cell)) := self_column_info.

Definition get_data_preview (n_rows : Z) : Method (list (Series Cell)) :=
  let* d := self_data "head" in ret (df_head n_rows d).

Definition extract_columns (request : str) : Method (label * label) :=
  let* d := self_data "columns" in
  let* found_cols := call (comprehension (col_in_request request) (columns d)) in
  if 2 <=? length found_cols then
    let* x := call (list_getitem found_cols 0) in
    let* y := call (list_getitem found_cols 1) in
    ret (x, y)
  else if length found_cols =? 1 then
    let* info := self_column_info in
    let* numeric_cols := call (numeric_among info (columns d)) in
    let* x := call (list_getitem found_cols 0) in
    let* y := (match numeric_cols with
               | _ :: _ => call (list_getitem numeric_cols 0)
               | [] => call (list_getitem found_cols 0)
               end) in
    ret (x, y)
  else
    let* info := self_column_info in
    let* numeric_cols := call (numeric_among info (columns d)) in
    if 2 <=? length numeric_cols then
      let* x := call (index_getitem (columns d) 0) in
      let* y := call (list_getitem numeric_cols 0) in
      ret (x, y)
    else
      let* x := call (index_getitem (columns d) 0) in
      let* y := (if 1 <? length (columns d) then call (index_getitem (columns d) 1)
                 else call (index_getitem (columns d) 0)) in
      ret (x, y).

Definition generate_chart_code (chart_type request : str) : Method str :=
  let* xy := extract_columns request in
  let x_col := xy.1 in
  let y_col := xy.2 in
  let* template := call (dict_getitem Str templates chart_type) in
  call (format template
          (<[lit "x" := label_str x_col]>
             (<[lit "y" := label_str y_col]>
                (<[lit "title" := request]>
                   (<[lit "x_label" := label_str x_col]>
                      (<[lit "y_label" := label_str y_col]> ∅)))))).

(** [exec] of a script on the stored table: the script works on the
    table object itself, so what it did to the table stays in [self.data],
    also when it raises; [column_info] is not analyzed again. *)
Definition exec (code : str) (d : list (Series Cell)) : Method (gmap str Obj) :=
  λ g, let r := py_exec code d in
       (r.1, {| data := Some r.2; column_info := column_info g |}).

(** [self.data] is read a second time for [local_vars]; no call in
    between assigns it, so the table of the first read is the one bound. *)
Definition generate_chart (request : str) : Method (option Obj) :=
  λ g, match data g with
       | None => raise NoDataError g
       | Some d =>
           (let chart_type := determine_chart_type request in
            let* code := generate_chart_code chart_type request in
            let* local_vars := exec code d in
            ret (local_vars !! lit "fig")) g
       end.

End Methods.

(* ================================================================= *)
(** ** The vocabulary of the specification *)

(** The five chart kinds of the classification interface. *)
Definition chart_types : list str :=
  [lit "pie"; lit "bar"; lit "line"; lit "scatter"; lit "histogram"].

(** The keyword groups in priority order, each with its chart type. *)
Definition rules : list (list str * str) :=
  [([lit "pie"], lit "pie");
   ([lit "bar"; lit "column"], lit "bar");
   ([lit "line"; lit "trend"], lit "line");
   ([lit "scatter"; lit "point"], lit "scatter");
   ([lit "histogram"; lit "distribution"], lit "histogram")].

Section Vocabulary.

Context `{Unicode}.

(** Whole-word, case-insensitive match (glossary): the lower-case form of
    [k] occurs in the lower-case form of the request with no word
    character just before it and none just after it. *)
Definition whole_word (k request : str) : Prop :=
  ∃ pre post,
    lower request = pre ++ lower k ++ post ∧
    Re.word_at (last pre) = false ∧ Re.word_at (head post) = false.

(** A rule fires when one of its keywords occurs as a whole word. *)
Definition fires (request : str) (rule : list str * str) : Prop :=
  ∃ k, k ∈ rule.1 ∧ whole_word k request.

(** The literal [k] stands at the split [pre | k ++ post] of the subject
    with a word boundary on each side. *)
Definition bounded_at (k pre post : str) : Prop :=
  Re.word_at (last pre) ≠ Re.word_at (head (k ++ post)) ∧
  Re.word_at (last (pre ++ k)) ≠ Re.word_at (head post).

(** A case-insensitive occurrence of [k] with a word boundary at each
    end: what [\b...\b] around an arbitrary label asks for. *)
Definition mentions (k request : str) : Prop :=
  ∃ pre post, lower request = pre ++ lower k ++ post ∧ bounded_at (lower k) pre post.

(** A label whose lower-case form begins and ends with a word character. *)
Definition wordy (k : str) : Prop :=
  Re.word_at (head (lower k)) = true ∧ Re.word_at (last (lower k)) = true.

(** Whether a rule fires, as the cascade of [determine_chart_type] tests it. *)
Definition fires_b (request : str) (rule : list str * str) : bool :=
  existsb (λ k, Re.search (Re.word k) (lower request)) rule.1.

End Vocabulary.

(** A keyword as the source writes them: ASCII, in lower case, beginning
    and ending with a word character. *)
Definition plain_keyword (k : str) : bool :=
  forallb (λ c, (c <? 128)%N) k && bool_decide (ascii_lower <$> k = k) &&
  match head k, last k with
  | Some a, Some b => ascii_is_word a && ascii_is_word b
  | _, _ => false
  end.

(** A label all of whose characters are ASCII, if it is a [str]. *)
Definition ascii_label (col : label) : Prop :=
  match col with Str s => is_ascii s | NonStr _ _ _ => True end.

(** A position of the matcher that lies within the characters of [subject]. *)
Definition within (subject : str) (c : Re.cursor) : Prop :=
  (∀ a, Re.behind c = Some a → a ∈ subject) ∧ (∀ a, a ∈ Re.ahead c → a ∈ subject).

(** The character behind the position reached after reading [pre] from a
    position that had [prev] behind it. *)
Definition carry (prev : option char) (pre : str) : option char :=
  match last pre with Some a => Some a | None => prev end.

(* ================================================================= *)
(** ** Loaded generators *)

Section Frames.

Context {Cell : Type}.

(** Every column of a table has as many values as the table has rows. *)
Definition rectangular (d : list (Series Cell)) : Prop :=
  ∀ s, s ∈ d → length (values s) = df_len d.

(** The entry the analyzer records for a column. *)
Definition summary (d : list (Series Cell)) (s : Series Cell) : ColumnInfo Cell :=
  {| info_dtype := dtype_str (dtype s);
     info_sample := if 0 <? df_len d then head (values s) else None;
     info_numeric := is_numeric_dtype (dtype s) |}.

(** The mapping the analyzer builds, one assignment per label in column order. *)
Definition info_map (d : list (Series Cell)) : gmap label (ColumnInfo Cell) :=
  foldl (λ m col, match df_getitem d col with
                  | Ok s => <[col := summary d s]> m
                  | Raise _ => m
                  end) ∅ (columns d).

(** The numeric flag the mapping holds for a label. *)
Definition numeric_label (d : list (Series Cell)) (col : label) : bool :=
  match df_getitem d col with
  | Ok s => is_numeric_dtype (dtype s)
  | Raise _ => false
  end.

(** A generator holding the table [d] together with its analysis. *)
Definition Loaded (g : ChartGenerator Cell) (d : list (Series Cell)) : Prop :=
  data g = Some d ∧ column_info g = info_map d.

(** The generator a successful load of [d] leaves. *)
Definition loaded_with (d : list (Series Cell)) : ChartGenerator Cell :=
  {| data := Some d; column_info := info_map d |}.

(** The invariant of the data model: the column info is the analysis of
    the stored table, and empty while there is none. *)
Definition Consistent (g : ChartGenerator Cell) : Prop :=
  match data g with
  | None => column_info g = ∅
  | Some d => rectangular d ∧ column_info g = info_map d
  end.

End Frames.

Section Selection.

Context `{Unicode} {Cell : Type}.

(** [found_cols] and [numeric_cols] as functions of the table. *)
Definition found_in (request : str) (d : list (Series Cell)) : outcome (list label) :=
  comprehension (col_in_request request) (columns d).

Definition numeric_cols_of (d : list (Series Cell)) : list label :=
  filter (λ col, numeric_label d col = true) (columns d).

(** The three branches of [extract_columns] over a loaded table. *)
Definition selection (request : str) (d : list (Series Cell)) : outcome (label * label) :=
  match found_in request d with
  | Raise e => Raise e
  | Ok (x :: y :: _) => Ok (x, y)
  | Ok [x] => Ok (x, match numeric_cols_of d with n :: _ => n | [] => x end)
  | Ok [] =>
      match columns d with
      | [] => Raise (IndexError (lit "index 0 is out of bounds for axis 0 with size 0"))
      | c0 :: rest =>
          if 2 <=? length (numeric_cols_of d) then
            Ok (c0, match numeric_cols_of d with n :: _ => n | [] => c0 end)
          else Ok (c0, match rest with c1 :: _ => c1 | [] => c0 end)
      end
  end.

End Selection.

(* ================================================================= *)
(** ** Load calls and histories *)

(** A call of one of the two load methods. *)
Inductive load_call : Type :=
| ByPath (file_path : str)
| ByUpload (uploaded_file : UploadedFile).

(** The file name whose suffix the call dispatches on. *)
Definition call_name (c : load_call) : str :=
  match c with
  | ByPath p => p
  | ByUpload f => upload_name f
  end.

Definition recognized (name : str) : bool :=
  endswith name (lit ".csv") || endswith name (lit ".xls") || endswith name (lit ".xlsx").

Section Histories.

Context {Cell : Type}.
Variable read_csv read_excel : source → outcome (list (Series Cell)).

Definition load (c : load_call) : method Cell bool :=
  match c with
  | ByPath p => load_data read_csv read_excel p
  | ByUpload f => load_data_from_upload read_csv read_excel f
  end.

(** A sequence of load calls on one generator: the outcome of each call
    and the state after the last. *)
Fixpoint loads (calls : list load_call) (g : ChartGenerator Cell)
  : list (outcome bool) * ChartGenerator Cell :=
  match calls with
  | [] => ([], g)
  | c :: rest =>
      let r := load c g in
      let rs := loads rest r.2 in
      (r.1 :: rs.1, rs.2)
  end.

(** What [pandas] guarantees of a reader's result. *)
Definition rectangular_reader (read : source → outcome (list (Series Cell))) : Prop :=
  ∀ src d, read src = Ok d → rectangular d.

End Histories.

(* ================================================================= *)
(** ** The claims' own readings, and example tables *)

(** [re.search(...).start()] for a column name: where the request first
    mentions it. *)
Definition first_occurrence `{Unicode} (request col : str) : option nat :=
  Re.search_start (Re.word (lower col)) (lower request).

(** Following the claim's words: the matched names in the order of their
    first occurrence within the request. *)
Definition by_first_occurrence `{Unicode} (request : str) (cols : list str) : list str :=
  (@merge_sort _ (λ p q : nat * str, p.1 ≤ q.1) (λ p q, decide (p.1 ≤ q.1))
     (omap (λ col, (λ i, (i, col)) <$> first_occurrence request col) cols)).*2.

(** Following the claim's words: the first numeric column distinct from [x]. *)
Definition first_numeric_other {Cell} (d : list (Series Cell)) (x : label) : option label :=
  head (filter (λ col, numeric_label d col = true ∧ col ≠ x) (columns d)).

Inductive cell : Type := Num (z : Z) | Text (s : string).

Definition column (header : string) (t : Dtype) (vs : list cell) : Series cell :=
  {| name := Str (lit header); dtype := t; values := vs |}.

Definition region_sales : list (Series cell) :=
  [column "Region" Object [Text "North"; Text "South"];
   column "Sales" Int64 [Num 120; Num 80]].

Definition sales_profit : list (Series cell) :=
  [column "Sales" Int64 [Num 120; Num 80];
   column "Profit" Int64 [Num 30; Num 10]].

Definition month_region_sales : list (Series cell) :=
  [column "Month" Object [Text "Jan"; Text "Feb"];
   column "Region" Object [Text "North"; Text "South"];
   column "Sales" Int64 [Num 120; Num 80]].

Definition sales_elan : list (Series cell) :=
  [column "Sales" Int64 [Num 120; Num 80];
   column "Élan" Object [Text "vif"; Text "lent"]].

(** A sheet whose second header is the number 2023: [pd.read_excel]
    gives that column an [int] label. *)
Definition year_sheet : list (Series cell) :=
  [column "Region" Object [Text "North"; Text "South"];
   {| name := NonStr (lit "int") (lit "2023") (lit "2023"); dtype := Int64;
      values := [Num 120; Num 80] |}].

(** The table [pd.read_excel] returns for an empty sheet. *)
Definition no_columns : list (Series cell) := [].

(** Readers for the examples: every [.xlsx] source is an empty sheet, a
    [.csv] source cannot be parsed. *)
Definition empty_sheet (src : source) : outcome (list (Series cell)) := Ok no_columns.
Definition unreadable (src : source) : outcome (list (Series cell)) :=
  Raise (ReaderError (lit "No columns to parse from file")).

(** An executor for the examples: the script binds nothing and leaves
    the table as it is. *)
Definition binds_nothing (code : str) (d : list (Series cell))
  : outcome (gmap str unit) * list (Series cell) := (Ok ∅, d).

(* ================================================================= *)
(** ** Further vocabulary: load sources and the scripts *)

(** What a load call hands to the reader. *)
Definition call_source (c : load_call) : source :=
  match c with
  | ByPath p => FilePath p
  | ByUpload f => Buffer f
  end.

(** The reader a file name dispatches to, if any: [.csv] first, then
    [.xls] or [.xlsx]. *)
Inductive reader_kind : Type := CsvReader | ExcelReader.

Definition dispatch (name : str) : option reader_kind :=
  if endswith name (lit ".csv") then Some CsvReader
  else if endswith name (lit ".xls") || endswith name (lit ".xlsx") then Some ExcelReader
  else None.

Definition reader_of {Cell} (read_csv read_excel : source → outcome (list (Series Cell)))
    (k : reader_kind) : source → outcome (list (Series Cell)) :=
  match k with
  | CsvReader => read_csv
  | ExcelReader => read_excel
  end.

(** A reader for the examples: every source holds the Region/Sales table. *)
Definition reads_region_sales (src : source) : outcome (list (Series cell)) := Ok region_sales.

(** Readers for the examples: the file "q3.csv" holds the Region/Sales
    table and no other path can be parsed; every uploaded workbook holds
    the Sales/Profit table and no path leads to one. *)
Definition csv_files (src : source) : outcome (list (Series cell)) :=
  match src with
  | FilePath p =>
      if decide (p = lit "q3.csv") then Ok region_sales
      else Raise (ReaderError (lit "No columns to parse from file"))
  | Buffer _ => Raise (ReaderError (lit "No columns to parse from file"))
  end.

Definition workbooks (src : source) : outcome (list (Series cell)) :=
  match src with
  | FilePath _ => Raise (ReaderError (lit "File is not a zip file"))
  | Buffer _ => Ok sales_profit
  end.

(** The three scripts, written out around the inserted texts. *)
Definition bar_script (x y title : str) : str :=
  lit "fig, ax = plt.subplots(figsize=(10,6))
ax.bar(data['" ++ x ++ lit "'], data['" ++ y ++ lit "'])
ax.set_title('" ++ title ++ lit "')
ax.set_xlabel('" ++ x ++ lit "')
ax.set_ylabel('" ++ y ++ lit "')
plt.xticks(rotation=45)
plt.tight_layout()
# Removed the return statement".

Definition pie_script (x y title : str) : str :=
  lit "fig, ax = plt.subplots(figsize=(8,8))
data.groupby('" ++ x ++ lit "')['" ++ y ++ lit "'].sum().plot.pie(autopct='%1.1f%%', ax=ax)
ax.set_title('" ++ title ++ lit "')
ax.set_ylabel('')
# Removed the return statement".

Definition line_script (x y title : str) : str :=
  lit "fig, ax = plt.subplots(figsize=(10,6))
ax.plot(data['" ++ x ++ lit "'], data['" ++ y ++ lit "'])
ax.set_title('" ++ title ++ lit "')
ax.set_xlabel('" ++ x ++ lit "')
ax.set_ylabel('" ++ y ++ lit "')
ax.grid(True)
# Removed the return statement".

(* ================================================================= *)
(** ** The Streamlit page ([app.py])

    One run of the script. The four widgets are rendered on every run and
    their return values are the run's inputs; what the run displays is the
    list of its display calls, in order. Captions are recorded without
    their text. [st.session_state] keeps its three entries between runs. *)

(** What the widgets return in one run: the uploaded file if any, the
    text of the request box, whether the button was clicked, whether the
    box "Show generated Python code" is ticked. *)
Record widgets : Type :=
  { uploaded_file : option UploadedFile;
    text_input : str;
    button : bool;
    checkbox : bool }.

(** [str(b)] for a Python [bool]. *)
Definition bool_str (b : bool) : str := if b then lit "True" else lit "False".

(** The handler [except ValueError] takes this exception. *)
Definition is_value_error (e : exn) : bool :=
  match e with ValueError _ => true | _ => false end.

(** The handler [except Exception] takes this exception: every class of
    [exn] derives from [Exception]. *)
Definition is_exception (e : exn) : bool :=
  match e with
  | ValueError _ | AttributeError _ | IndexError _ | KeyError _ | ReaderError _ => true
  end.

(** The truth value of a Python [str]: non-empty. *)
Definition str_truth (s : str) : bool :=
  match s with [] => false | _ :: _ => true end.

Section Page.

Context {Cell Obj : Type}.

(** The entries of [st.session_state]; [None] for an entry not yet set. *)
Record session : Type :=
  { generator : option (ChartGenerator Cell);
    chart_request : option str;
    show_code : option bool }.

Definition empty_session : session :=
  {| generator := None; chart_request := None; show_code := None |}.

Inductive ui_event : Type :=
| SidebarHeader
| SidebarSuccess (msg : str)
| SidebarPreviewCaption
| SidebarDataframe (d : list (Series Cell))
| SidebarColumnsCaption
| SidebarTexts (lines : gmap label str)
| SidebarError (msg : str)
| Title
| Markdown
| Error (msg : str)
| Spinner
| Pyplot (fig : Obj)
| Code (code : str).

(** A step of the script: an outcome, the session it leaves and what it
    displayed. *)
Definition page (A : Type) : Type := session → outcome A * session * list ui_event.

Definition pret {A} (a : A) : page A := λ s, (Ok a, s, []).

Definition pbind {A B} (m : page A) (k : A → page B) : page B :=
  λ s, match m s with
       | (Ok a, s1, shown) =>
           match k a s1 with
           | (r, s2, shown') => (r, s2, shown ++ shown')
           end
       | (Raise e, s1, shown) => (Raise e, s1, shown)
       end.

(** A display call. *)
Definition emit (e : ui_event) : page unit := λ s, (Ok tt, s, [e]).

(** [try: body  except Kind as e: handler(e)], for the exceptions [catches]
    selects. *)
Definition ptry {A} (catches : exn → bool) (body : page A) (handler : exn → page A) : page A :=
  λ s, match body s with
       | (Ok a, s1, shown) => (Ok a, s1, shown)
       | (Raise e, s1, shown) =>
           if catches e then
             match handler e s1 with
             | (r, s2, shown') => (r, s2, shown ++ shown')
             end
           else (Raise e, s1, shown)
       end.

(** Reading an entry of [st.session_state] that is not set raises
    [AttributeError] (of Streamlit's message only the entry's name is kept). *)
Definition missing_entry (entry : string) : exn := AttributeError (lit entry).

Definition the_chart_request : page str :=
  λ s, match chart_request s with
       | Some r => (Ok r, s, [])
       | None => (Raise (missing_entry "chart_request"), s, [])
       end.

Definition the_show_code : page bool :=
  λ s, match show_code s with
       | Some b => (Ok b, s, [])
       | None => (Raise (missing_entry "show_code"), s, [])
       end.

Definition set_chart_request (r : str) : page unit :=
  λ s, (Ok tt, {| generator := generator s; chart_request := Some r; show_code := show_code s |}, []).

Definition set_show_code (b : bool) : page unit :=
  λ s, (Ok tt, {| generator := generator s; chart_request := chart_request s; show_code := Some b |}, []).

(** [st.session_state.generator.m(...)]: the method runs on the stored
    generator, which keeps what the method assigned. *)
Definition on_generator {A} (m : method Cell A) : page A :=
  λ s, match generator s with
       | Some g =>
           match m g with
           | (r, g') =>
               (r, {| generator := Some g'; chart_request := chart_request s;
                      show_code := show_code s |}, [])
           end
       | None => (Raise (missing_entry "generator"), s, [])
       end.

(** [not hasattr(st.session_state, 'generator') or
    st.session_state.generator.data is None] *)
Definition no_data : page bool :=
  λ s, match generator s with
       | None => (Ok true, s, [])
       | Some g => (Ok (bool_decide (data g = None)), s, [])
       end.

(** The session with its generator replaced. *)
Definition with_generator (s : session) (g : ChartGenerator Cell) : session :=
  {| generator := Some g; chart_request := chart_request s; show_code := show_code s |}.

(** The table the session's generator holds, if any. *)
Definition stored_data (s : session) : option (list (Series Cell)) :=
  match generator s with
  | Some g => data g
  | None => None
  end.

Definition initialize_session_state : page unit :=
  λ s, (Ok tt,
        {| generator := Some (default init (generator s));
           chart_request := Some (default [] (chart_request s));
           show_code := Some (default false (show_code s)) |},
        []).

(** The lines of the column information loop, by column. The loop shows
    them in the order of the mapping's items, which the model of
    [column_info] does not keep; they are recorded as one mapping. *)
Definition column_lines (info : gmap label (ColumnInfo Cell)) : gmap label str :=
  map_imap (λ col i, Some (label_str col ++ lit ": " ++ info_dtype i ++ lit " (numeric: " ++
                           bool_str (info_numeric i) ++ lit ")")) info.

End Page.

Arguments session : clear implicits.
Arguments ui_event : clear implicits.
Arguments page : clear implicits.

Declare Scope page_scope.
Delimit Scope page_scope with page.
Notation "'let*' x ':=' m 'in' k" :=
  (pbind m (λ x, k))
  (at level 10, x name, m at level 100, k at level 200) : page_scope.
Notation "m1 '>>' m2" :=
  (pbind m1 (λ _, m2))
  (at level 100, m2 at level 200, right associativity) : page_scope.

Section Main.

Context `{Unicode} {Cell Obj : Type}.
Variable read_csv read_excel : source → outcome (list (Series Cell)).
Variable py_exec : str → list (Series Cell) → outcome (gmap str Obj) * list (Series Cell).

(** [bool(fig)] for a figure object. *)
Variable truthy : Obj → bool.

Local Open Scope page_scope.
Local Abbreviation Page := (page Cell Obj).

(** The sidebar: load the uploaded file, then show the preview and the
    column information; a [ValueError] is shown as the sidebar's error. *)
Definition sidebar (w : widgets) : Page unit :=
  emit SidebarHeader >>
  match uploaded_file w with
  | Some f =>
      ptry is_value_error
        (let* _ := on_generator (load_data_from_upload read_csv read_excel f) in
         emit (SidebarSuccess (lit "Data loaded successfully!")) >>
         emit SidebarPreviewCaption >>
         let* preview := on_generator (get_data_preview 5) in
         emit (SidebarDataframe preview) >>
         emit SidebarColumnsCaption >>
         let* info := on_generator get_column_info in
         emit (SidebarTexts (column_lines info)))
        (λ e, emit (SidebarError (exn_str e)))
  | None => pret tt
  end.

(** The "Generate Chart" button. *)
Definition generate_button (w : widgets) : Page unit :=
  if button w then
    let* request := the_chart_request in
    if str_truth request then
      let* missing := no_data in
      if missing then emit (Error (lit "Please upload a data file first!"))
      else
        emit Spinner >>
        ptry is_exception
          (let* request := the_chart_request in
           let* fig := on_generator (generate_chart py_exec request) in
           match fig with
           | Some o =>
               if truthy o then emit (Pyplot o)
               else emit (Error (lit "Failed to generate chart. Please try a different description."))
           | None =>
               emit (Error (lit "Failed to generate chart. Please try a different description."))
           end)
          (λ e, emit (Error (lit "Error generating chart: " ++ exn_str e)))
    else pret tt
  else pret tt.

(** The "Show generated Python code" box. *)
Definition code_box (w : widgets) : Page unit :=
  set_show_code (checkbox w) >>
  let* show := the_show_code in
  if show then
    let* request := the_chart_request in
    if str_truth request then
      ptry is_exception
        (let* request := the_chart_request in
         let* chart_type := on_generator (ret (determine_chart_type request)) in
         let* code := on_generator (generate_chart_code chart_type request) in
         emit (Code code))
        (λ e, emit (Error (lit "Couldn't show code: " ++ exn_str e)))
    else pret tt
  else pret tt.

Definition main (w : widgets) : Page unit :=
  initialize_session_state >>
  sidebar w >>
  emit Title >>
  emit Markdown >>
  set_chart_request (text_input w) >>
  generate_button w >>
  code_box w.

End Main.

(** [bool(fig)] for the examples. *)
Definition always_true (o : unit) : bool := true.

(* ================================================================= *)
(** * Properties *)

(* ================================================================= *)
(** ** Text and patterns *)

Lemma between_spec lo hi c : between lo hi c = true ↔ (lo ≤ c ∧ c ≤ hi)%N.
Proof. unfold between. rewrite andb_true_iff, !N.leb_le. done. Qed.

Lemma between_above lo hi c : (c < lo)%N → between lo hi c = false.
Proof.
  intros Hc. apply not_true_is_false. rewrite between_spec. lia.
Qed.

Lemma latin1_ascii : @UnicodeAscii latin1.
Proof.
  split.
  - intros s Hs. simpl. apply list_fmap_ext. intros i c Hi.
    assert (c < 128)%N as Hc.
    { unfold is_ascii in Hs. rewrite Forall_forall in Hs. apply Hs.
      by eapply list_elem_of_lookup_2. }
    unfold latin1_lower, ascii_lower.
    rewrite (between_above 192 214), (between_above 216 222) by lia.
    by rewrite !orb_false_r.
  - intros c Hc. simpl. unfold latin1_is_word.
    rewrite (between_above 178 179), (between_above 185 186), (between_above 188 190),
      (between_above 192 214), (between_above 216 246), (between_above 248 255) by lia.
    assert ((c =? 170)%N = false) as -> by (apply N.eqb_neq; lia).
    assert ((c =? 181)%N = false) as -> by (apply N.eqb_neq; lia).
    by rewrite !orb_false_r.
Qed.

Lemma is_ascii_lower s : is_ascii s → is_ascii (ascii_lower <$> s).
Proof.
  unfold is_ascii. intros Hs. apply Forall_fmap. eapply Forall_impl; [exact Hs |].
  intros c Hc. simpl. unfold ascii_lower.
  destruct (between 65 90 c) eqn:Hb; [| done]. apply between_spec in Hb. lia.
Qed.

Lemma is_ascii_decide s : forallb (λ c, (c <? 128)%N) s = true → is_ascii s.
Proof.
  intros Hs. unfold is_ascii. apply Forall_forall. intros c Hc.
  rewrite forallb_forall in Hs. apply N.ltb_lt, Hs. by apply list_elem_of_In.
Qed.

Lemma eat_spec k c c' :
  Re.eat k c = Some c' ↔
  Re.ahead c = k ++ Re.ahead c' ∧
  Re.behind c' = match last k with Some a => Some a | None => Re.behind c end.
Proof.
  revert c. induction k as [|a k IH]; intros [prev s]; simpl.
  - split.
    + intros [= <-]. done.
    + destruct c' as [p' s']. simpl. intros [-> ->]. done.
  - destruct s as [|b s]; simpl.
    + split; [done | intros [? _]; done].
    + case_decide as Hab.
      * subst b. rewrite IH. simpl. rewrite last_cons.
        destruct (last k); split; intros [H1 H2]; split; congruence.
      * split; [done | intros [[=] _]; done].
Qed.

Section PatternFacts.

Context `{Unicode}.

Lemma scan_spec p prev s :
  Re.scan p prev s = true ↔
  ∃ pre post, s = pre ++ post ∧ Re.matches_at p (Re.Cursor (carry prev pre) post) = true.
Proof.
  revert prev. induction s as [|a s IH]; intros prev; simpl.
  - rewrite orb_false_r. split.
    + intros Hm. by exists [], [].
    + intros (pre & post & Hs & Hm). symmetry in Hs.
      apply app_eq_nil in Hs as [-> ->]. done.
  - rewrite orb_true_iff, IH. split.
    + intros [Hm | (pre & post & -> & Hm)].
      * by exists [], (a :: s).
      * exists (a :: pre), post. split; [done |].
        unfold carry in *. rewrite last_cons. by destruct (last pre).
    + intros (pre & post & Hs & Hm). destruct pre as [|b pre]; simpl in Hs.
      * subst post. by left.
      * injection Hs as -> ->. right. exists pre, post. split; [done |].
        unfold carry in *. rewrite last_cons in Hm. by destruct (last pre).
Qed.

Lemma search_spec p s :
  Re.search p s = true ↔
  ∃ pre post, s = pre ++ post ∧ Re.matches_at p (Re.Cursor (last pre) post) = true.
Proof.
  unfold Re.search. rewrite scan_spec.
  assert (Hc : ∀ pre, carry None pre = last pre) by (intros pre; unfold carry; by destruct (last pre)).
  split; intros (pre & post & ? & ?); exists pre, post; [rewrite <- Hc | rewrite Hc]; done.
Qed.

Lemma boundary_true c :
  Re.boundary c = true ↔ Re.word_at (Re.behind c) ≠ Re.word_at (head (Re.ahead c)).
Proof.
  unfold Re.boundary.
  destruct (Re.word_at (Re.behind c)), (Re.word_at (head (Re.ahead c))); simpl;
    split; intros ?; congruence.
Qed.

Lemma matches_word_at k pre rest :
  Re.matches_at (Re.word k) (Re.Cursor (last pre) rest) = true ↔
  ∃ post, rest = k ++ post ∧ bounded_at k pre post.
Proof.
  unfold Re.matches_at, Re.word, bounded_at. simpl.
  destruct (Re.boundary (Re.Cursor (last pre) rest)) eqn:Hb; simpl.
  - apply boundary_true in Hb. simpl in Hb.
    destruct (Re.eat k _) as [c'|] eqn:He; simpl.
    + apply eat_spec in He as [Hrest Hbehind]. simpl in *.
      assert (Hl : Re.behind c' = last (pre ++ k)) by (rewrite last_app; done).
      destruct (Re.boundary c') eqn:Hb'; simpl.
      * apply boundary_true in Hb'. split; [intros _ | done].
        exists (Re.ahead c'). rewrite <- Hl, <- Hrest. done.
      * split; [done |]. intros (post & Hp & _ & H2).
        rewrite Hrest in Hp. apply app_inv_head in Hp. subst post.
        rewrite <- Hl in H2. apply boundary_true in H2. congruence.
    + split; [done |]. intros (post & Hp & _).
      assert (Re.eat k (Re.Cursor (last pre) rest) = Some (Re.Cursor (last (pre ++ k)) post)) as Hx.
      { apply eat_spec. simpl. split; [done |]. by rewrite last_app. }
      congruence.
  - split; [done |]. intros (post & -> & H1 & _).
    assert (Re.boundary (Re.Cursor (last pre) (k ++ post)) = true) by (by apply boundary_true).
    congruence.
Qed.

Lemma matches_word2_at k1 k2 c :
  Re.matches_at (Re.word2 k1 k2) c =
  Re.matches_at (Re.word k1) c || Re.matches_at (Re.word k2) c.
Proof.
  unfold Re.matches_at, Re.word2, Re.word. simpl.
  destruct (Re.boundary c); simpl; [| done].
  rewrite !app_nil_r.
  destruct (Re.eat k1 c) as [c1|]; destruct (Re.eat k2 c) as [c2|]; simpl;
    rewrite ?app_nil_r; try done.
  - destruct (Re.boundary c1), (Re.boundary c2); done.
  - destruct (Re.boundary c1); done.
Qed.

Lemma search_word k s :
  Re.search (Re.word k) s = true ↔
  ∃ pre post, s = pre ++ k ++ post ∧ bounded_at k pre post.
Proof.
  rewrite search_spec. split.
  - intros (pre & rest & -> & Hm). apply matches_word_at in Hm as (post & -> & Hm).
    by exists pre, post.
  - intros (pre & post & -> & Hm). exists pre, (k ++ post). split; [done |].
    apply matches_word_at. by exists post.
Qed.

Lemma search_word2 k1 k2 s :
  Re.search (Re.word2 k1 k2) s = Re.search (Re.word k1) s || Re.search (Re.word k2) s.
Proof.
  unfold Re.search. generalize (@None char). induction s as [|a s IH]; intros prev; simpl.
  - rewrite !orb_false_r. apply matches_word2_at.
  - rewrite IH, matches_word2_at.
    destruct (Re.matches_at (Re.word k1) _), (Re.matches_at (Re.word k2) _),
      (Re.scan (Re.word k1) _ _), (Re.scan (Re.word k2) _ _); done.
Qed.

Lemma mentions_search request (col : str) :
  Re.search (Re.word (lower col)) (lower request) = true ↔ mentions col request.
Proof. unfold mentions. apply search_word. Qed.

(** The condition of the comprehension, for a [str] label, is the
    occurrence the specification describes. *)
Lemma col_in_request_mentions request (col : str) :
  col_in_request request (Str col) = Ok true ↔ mentions col request.
Proof.
  rewrite <- mentions_search. simpl. split; [by intros [= ->] | by intros ->].
Qed.

Lemma mentions_whole_word k request :
  wordy k → mentions k request ↔ whole_word k request.
Proof.
  intros [Hh Hl]. unfold mentions, whole_word, bounded_at.
  assert (lower k ≠ []) as Hne by (intros Hk; rewrite Hk in Hh; done).
  assert (∀ post, Re.word_at (head (lower k ++ post)) = true) as Hh'.
  { intros post. destruct (lower k); [done | exact Hh]. }
  assert (∀ pre, Re.word_at (last (pre ++ lower k)) = true) as Hl'.
  { intros pre. rewrite last_app. destruct (last (lower k)); [exact Hl | done]. }
  split; intros (pre & post & Hs & H1 & H2); exists pre, post; (split; [done |]).
  - rewrite Hh' in H1. rewrite Hl' in H2.
    split; [by destruct (Re.word_at (last pre)) | by destruct (Re.word_at (head post))].
  - rewrite Hh', Hl', H1, H2. done.
Qed.

End PatternFacts.

(** A pattern is matched the same way under two versions of the tables
    that agree on the characters of the subject. *)
Section Agreement.

Variable U V : Unicode.
Variable subject : str.
Hypothesis agree : ∀ c, c ∈ subject → @is_word U c = @is_word V c.

Lemma boundary_agree c : within subject c → @Re.boundary U c = @Re.boundary V c.
Proof using agree.
  intros [Hb Ha]. unfold Re.boundary, Re.word_at. f_equal.
  - destruct (Re.behind c) as [a|]; [| done]. by apply agree, Hb.
  - destruct (Re.ahead c) as [|a rest]; [done |]. simpl. apply agree, Ha. left.
Qed.

Lemma eat_within k c c' : within subject c → Re.eat k c = Some c' → within subject c'.
Proof.
  revert c. induction k as [|a k IH]; intros [prev s] Hc; simpl.
  - by intros [= <-].
  - destruct s as [|b s]; [done |]. case_decide; [| done].
    apply IH. destruct Hc as [_ Ha]. simpl in *. split.
    + intros a' [= <-]. apply Ha. left.
    + intros a' Hin. apply Ha. by right.
Qed.

Lemma re_match_agree p c :
  within subject c →
  @Re.re_match U p c = @Re.re_match V p c ∧ Forall (within subject) (@Re.re_match U p c).
Proof using agree.
  revert c. induction p as [| s | p IHp q IHq | p IHp q IHq]; intros c Hc; simpl.
  - rewrite (boundary_agree c Hc). split; [done |].
    destruct (@Re.boundary V c); [by constructor | constructor].
  - split; [done |]. destruct (Re.eat s c) as [c'|] eqn:He; [| constructor].
    constructor; [| constructor]. by eapply eat_within.
  - destruct (IHp c Hc) as [Ep Hp]. destruct (IHq c Hc) as [Eq Hq].
    split; [by rewrite Ep, Eq | by apply Forall_app].
  - destruct (IHp c Hc) as [<- Hp].
    induction Hp as [|c1 l Hc1 Hl IH]; [by split |].
    destruct IH as [IHeq IHin]. destruct (IHq c1 Hc1) as [Heq Hin].
    rewrite !bind_cons. split; [by rewrite Heq, IHeq | by apply Forall_app].
Qed.

Lemma scan_agree p prev s :
  (∀ a, prev = Some a → a ∈ subject) → (∀ a, a ∈ s → a ∈ subject) →
  @Re.scan U p prev s = @Re.scan V p prev s.
Proof using agree.
  revert prev. induction s as [|a s IH]; intros prev Hp Hs; simpl.
  - unfold Re.matches_at. by rewrite (proj1 (re_match_agree p (Re.Cursor prev []) (conj Hp Hs))).
  - unfold Re.matches_at.
    rewrite (proj1 (re_match_agree p (Re.Cursor prev (a :: s)) (conj Hp Hs))).
    rewrite IH; [done | |].
    + intros a' [= <-]. apply Hs. left.
    + intros a' Hin. apply Hs. by right.
Qed.

End Agreement.

Lemma search_agree (U V : Unicode) p s :
  (∀ c, c ∈ s → @is_word U c = @is_word V c) → @Re.search U p s = @Re.search V p s.
Proof.
  intros Hagree. unfold Re.search. by apply (scan_agree U V s Hagree).
Qed.

(** On an ASCII request the classifier is the one [latin1] gives. *)
Lemma determine_chart_type_ascii `{Unicode} `{!UnicodeAscii} request :
  is_ascii request →
  determine_chart_type request = @determine_chart_type latin1 request.
Proof.
  intros Hr. unfold determine_chart_type.
  rewrite (lower_ascii request Hr), (@lower_ascii latin1 latin1_ascii request Hr).
  assert (Hagree : ∀ c, c ∈ ascii_lower <$> request → is_word c = @is_word latin1 c).
  { intros c Hc. pose proof (is_ascii_lower request Hr) as Hl.
    unfold is_ascii in Hl. rewrite Forall_forall in Hl.
    rewrite (is_word_ascii c (Hl c Hc)), (@is_word_ascii latin1 latin1_ascii c (Hl c Hc)). done. }
  by rewrite !(search_agree _ latin1 _ _ Hagree).
Qed.

Section ClassifierFacts.

Context `{Unicode} `{!UnicodeAscii}.

Lemma plain_keyword_spec k : plain_keyword k = true → lower k = k ∧ wordy k.
Proof using Type*.
  unfold plain_keyword. rewrite !andb_true_iff. intros [[Ha Hl] Hw].
  apply is_ascii_decide in Ha. apply bool_decide_eq_true in Hl.
  assert (lower k = k) as Hk by (by rewrite (lower_ascii k Ha)).
  split; [done |]. unfold wordy. rewrite Hk.
  unfold is_ascii in Ha. rewrite Forall_forall in Ha.
  destruct (head k) as [a|] eqn:Hh; [| done]. destruct (last k) as [b|] eqn:Hb; [| done].
  apply andb_true_iff in Hw as [Hwa Hwb]. simpl.
  rewrite (is_word_ascii a), (is_word_ascii b); [done | |].
  - apply Ha. rewrite last_lookup in Hb. by eapply list_elem_of_lookup_2.
  - apply Ha. rewrite head_lookup in Hh. by eapply list_elem_of_lookup_2.
Qed.

Lemma keyword_search k request :
  plain_keyword k = true →
  Re.search (Re.word k) (lower request) = true ↔ whole_word k request.
Proof using Type*.
  intros Hk. apply plain_keyword_spec in Hk as [Hl Hw].
  rewrite <- (mentions_whole_word k request Hw), <- mentions_search. by rewrite Hl.
Qed.

Lemma keywords_plain :
  Forall (λ rule : list str * str, Forall (λ k, plain_keyword k = true) rule.1) rules.
Proof. unfold rules. repeat constructor. Qed.

Lemma fires_b_fires request rule :
  rule ∈ rules → fires_b request rule = true ↔ fires request rule.
Proof using Type*.
  intros Hin. pose proof keywords_plain as Hp.
  rewrite Forall_forall in Hp. specialize (Hp rule Hin). rewrite Forall_forall in Hp.
  unfold fires_b, fires. rewrite existsb_exists. split.
  - intros (k & Hk & Hs). apply list_elem_of_In in Hk.
    exists k. split; [done |]. by apply keyword_search; [apply Hp |].
  - intros (k & Hk & Hs).
    exists k. split; [by apply list_elem_of_In |]. by apply keyword_search; [apply Hp |].
Qed.

Lemma determine_chart_type_table request :
  determine_chart_type request =
  match List.find (fires_b request) rules with
  | Some rule => rule.2
  | None => lit "bar"
  end.
Proof.
  unfold determine_chart_type, rules, fires_b. simpl.
  rewrite !search_word2, !orb_false_r.
  repeat match goal with
         | |- context [Re.search ?p ?s] => destruct (Re.search p s); simpl; try done
         end.
Qed.

Lemma not_piece : ¬ whole_word (lit "pie") (lit "piece").
Proof using Type*.
  intros Hw. apply keyword_search in Hw; [| done].
  assert (is_ascii (lit "piece")) as Ha by (by apply is_ascii_decide).
  rewrite (lower_ascii _ Ha) in Hw.
  rewrite (search_agree _ latin1) in Hw; [by vm_compute in Hw |].
  intros c Hc. pose proof (is_ascii_lower _ Ha) as Hl.
  unfold is_ascii in Hl. rewrite Forall_forall in Hl.
  by rewrite (is_word_ascii c (Hl c Hc)), (@is_word_ascii latin1 latin1_ascii c (Hl c Hc)).
Qed.

End ClassifierFacts.

Lemma find_first {A} (f : A → bool) before x after :
  f x = true → (∀ y, y ∈ before → f y = false) →
  List.find f (before ++ x :: after) = Some x.
Proof.
  intros Hx. induction before as [|b before IH]; intros Hb; simpl.
  - by rewrite Hx.
  - rewrite (Hb b) by left. apply IH. intros y Hy. apply Hb. by right.
Qed.

Lemma find_in_target {A} (f : A → bool) l x : List.find f l = Some x → x ∈ l.
Proof. intros Hf. apply find_some in Hf as [Hf _]. by apply list_elem_of_In. Qed.

(* ================================================================= *)
(** ** The chart-type classifier *)

(** C1: the classifier returns one of the five chart types; the first
    rule, in the priority order pie, bar/column, line/trend, scatter/point,
    histogram/distribution, one of whose keywords occurs in the request as
    a whole word (up to case) decides the type; when no rule fires the type
    is bar. A keyword inside a longer word does not count: "piece" holds no
    whole-word "pie" and classifies to bar. Case and word characters are
    those of the interpreter's Unicode tables, of which only their action
    on ASCII text is assumed. *)
Theorem determine_chart_type_priority `{Unicode} `{!UnicodeAscii} request :
  determine_chart_type request ∈ chart_types ∧
  (∀ before rule after,
      rules = before ++ rule :: after →
      fires request rule → (∀ r, r ∈ before → ¬ fires request r) →
      determine_chart_type request = rule.2) ∧
  ((∀ r, r ∈ rules → ¬ fires request r) → determine_chart_type request = lit "bar") ∧
  (¬ whole_word (lit "pie") (lit "piece") ∧ determine_chart_type (lit "piece") = lit "bar").
Proof.
  split; [| split; [| split]].
  - rewrite determine_chart_type_table.
    destruct (List.find _ rules) as [rule|] eqn:Hf.
    + apply find_in_target in Hf. unfold rules in Hf. unfold chart_types.
      repeat (apply elem_of_cons in Hf as [-> | Hf]; [simpl; rewrite !elem_of_cons; tauto |]).
      by apply elem_of_nil in Hf.
    + unfold chart_types. rewrite !elem_of_cons. tauto.
  - intros before rule after Hr Hfire Hnone.
    assert (∀ r, r ∈ before ++ rule :: after → r ∈ rules) as Hsub by (by rewrite Hr).
    rewrite determine_chart_type_table, Hr.
    rewrite (find_first (fires_b request) before rule after); [done | |].
    + apply fires_b_fires; [| done]. apply Hsub, elem_of_app. right. left.
    + intros y Hy. apply not_true_is_false. intros Hy'.
      apply (Hnone y Hy). apply fires_b_fires; [| done]. apply Hsub, elem_of_app. by left.
  - intros Hnone. rewrite determine_chart_type_table.
    destruct (List.find _ rules) as [rule|] eqn:Hf; [| done].
    apply find_some in Hf as [Hin Hb]. apply list_elem_of_In in Hin.
    exfalso. apply (Hnone rule Hin). by apply fires_b_fires.
  - split; [apply not_piece |].
    rewrite determine_chart_type_ascii by (by apply is_ascii_decide). by vm_compute.
Qed.

Section ClassifierExamples.

#[local] Existing Instance latin1.
#[local] Existing Instance latin1_ascii.

(** The priority rule at work on two requests: "PIE" decides although
    "Bar" stands first in the request, and a request whose only keywords
    sit inside longer words ("trendy", "pieé") fires no rule and is a bar
    chart. *)
Lemma determine_chart_type_priority_witness :
  determine_chart_type (lit "Bar or PIE chart") = lit "pie" ∧
  determine_chart_type (lit "a trendy pieé") = lit "bar".
Proof.
  split.
  - destruct (determine_chart_type_priority (lit "Bar or PIE chart")) as (_ & Hfirst & _).
    apply (Hfirst [] ([lit "pie"], lit "pie") (tail rules)).
    + reflexivity.
    + exists (lit "pie"). split; [left |].
      exists (lit "bar or "), (lit " chart"). repeat split; reflexivity.
    + intros r Hr. by apply elem_of_nil in Hr.
  - destruct (determine_chart_type_priority (lit "a trendy pieé")) as (_ & _ & Hnone & _).
    apply Hnone. intros r Hr Hf. apply fires_b_fires in Hf; [| exact Hr].
    unfold rules in Hr.
    repeat (apply elem_of_cons in Hr as [-> | Hr]; [vm_compute in Hf; discriminate Hf |]).
    by apply elem_of_nil in Hr.
Defined.

End ClassifierExamples.

(* ================================================================= *)
(** ** Comprehensions *)

Lemma comprehension_filter {A} (cond : A → outcome bool) (f : A → bool) l :
  (∀ x, x ∈ l → cond x = Ok (f x)) →
  comprehension cond l = Ok (filter (λ x, f x = true) l).
Proof.
  induction l as [|a l IH]; intros Hc; simpl; [done |].
  rewrite (Hc a) by left. rewrite IH by (intros x Hx; apply Hc; by right).
  rewrite filter_cons. destruct (f a); by case_decide.
Qed.

Lemma comprehension_in {A} (cond : A → outcome bool) l found x :
  comprehension cond l = Ok found → x ∈ found → x ∈ l.
Proof.
  revert found. induction l as [|a l IH]; intros found; simpl.
  - intros [= <-] Hx. done.
  - destruct (cond a) as [b|e]; [| done].
    destruct (comprehension cond l) as [r|e]; [| done].
    intros [= <-] Hx. destruct b.
    + apply elem_of_cons in Hx as [-> | Hx]; [left | right; by apply (IH r)].
    + right. by apply (IH r).
Qed.

Lemma comprehension_ok {A} (cond : A → outcome bool) l found x :
  comprehension cond l = Ok found → x ∈ l → is_ok (cond x) = true.
Proof.
  revert found. induction l as [|a l IH]; intros found; simpl.
  - intros _ Hx. by apply elem_of_nil in Hx.
  - destruct (cond a) as [b|e] eqn:Ha; [| done].
    destruct (comprehension cond l) as [r|e]; [| done].
    intros _ Hx. apply elem_of_cons in Hx as [-> | Hx]; [by rewrite Ha | by apply (IH r)].
Qed.

Lemma comprehension_raise {A} (cond : A → outcome bool) before x after e :
  (∀ y, y ∈ before → is_ok (cond y) = true) → cond x = Raise e →
  comprehension cond (before ++ x :: after) = Raise e.
Proof.
  intros Hb Hx. induction before as [|b before IH]; simpl.
  - by rewrite Hx.
  - pose proof (Hb b ltac:(left)) as Hok. destruct (cond b) as [v|e']; [| done].
    rewrite IH by (intros y Hy; apply Hb; by right). done.
Qed.

Lemma comprehension_ext {A} (cond1 cond2 : A → outcome bool) l :
  (∀ x, x ∈ l → cond1 x = cond2 x) → comprehension cond1 l = comprehension cond2 l.
Proof.
  induction l as [|a l IH]; intros Hc; simpl; [done |].
  rewrite (Hc a) by left. by rewrite IH by (intros x Hx; apply Hc; by right).
Qed.

Lemma filter_none {A} (P : A → Prop) `{∀ x, Decision (P x)} (l : list A) :
  (∀ x, x ∈ l → ¬ P x) → filter P l = [].
Proof.
  induction l as [|a l IH]; intros Hn; [done |].
  rewrite filter_cons_False by (apply Hn; left). apply IH. intros x Hx. apply Hn. by right.
Qed.

Lemma Forall_is_str (cols : list label) :
  Forall is_str cols → ∃ names, cols = Str <$> names.
Proof.
  induction 1 as [|col cols Hc _ [names ->]]; [by exists [] |].
  destruct col as [s|]; [| done]. by exists (s :: names).
Qed.

(* ================================================================= *)
(** ** Tables and the analyzer *)

Section FrameFacts.

Context {Cell : Type}.
Implicit Types (d : list (Series Cell)) (s : Series Cell) (g : ChartGenerator Cell).

Lemma df_getitem_in d col :
  col ∈ columns d → ∃ s, df_getitem d col = Ok s ∧ s ∈ d ∧ name s = col.
Proof.
  intros Hin. unfold columns in Hin. apply list_elem_of_fmap in Hin as (s0 & -> & Hs0).
  unfold df_getitem.
  destruct (list_find (λ s, name s = name s0) d) as [[i s]|] eqn:Hf.
  - apply list_find_Some in Hf as (Hi & Hn & _).
    exists s. split; [done |]. split; [| done]. by eapply list_elem_of_lookup_2.
  - apply list_find_None in Hf. rewrite Forall_forall in Hf.
    exfalso. by apply (Hf s0).
Qed.

Lemma df_getitem_nodup d s :
  NoDup (columns d) → s ∈ d → df_getitem d (name s) = Ok s.
Proof.
  intros Hnd Hin. unfold df_getitem.
  destruct (list_find (λ t, name t = name s) d) as [[i t]|] eqn:Hf.
  - apply list_find_Some in Hf as (Hi & Hn & _).
    apply list_elem_of_lookup in Hin as [j Hj].
    assert (i = j) as ->.
    { eapply NoDup_lookup; [exact Hnd | |]; unfold columns; rewrite list_lookup_fmap.
      - by rewrite Hi.
      - rewrite Hj. simpl. by rewrite Hn. }
    congruence.
  - apply list_find_None in Hf. rewrite Forall_forall in Hf.
    exfalso. by apply (Hf s).
Qed.

Lemma numeric_label_nodup d s :
  NoDup (columns d) → s ∈ d → numeric_label d (name s) = is_numeric_dtype (dtype s).
Proof. intros Hnd Hin. unfold numeric_label. by rewrite df_getitem_nodup. Qed.

End FrameFacts.

Section AnalyzerFacts.

Context {Cell : Type}.
Implicit Types (d : list (Series Cell)) (s : Series Cell) (g : ChartGenerator Cell).

Lemma info_fold_lookup d (col : label) s (cols : list label) (m : gmap label (ColumnInfo Cell)) :
  df_getitem d col = Ok s →
  foldl (λ m col, match df_getitem d col with
                  | Ok s => <[col := summary d s]> m
                  | Raise _ => m
                  end) m cols !! col =
  if decide (col ∈ cols) then Some (summary d s) else m !! col.
Proof.
  intros Hs. revert m. induction cols as [|c cols IH]; intros m; cbn [foldl].
  - case_decide as Hin; [by apply elem_of_nil in Hin | done].
  - rewrite IH. destruct (decide (col ∈ cols)) as [Hin | Hout].
    + rewrite decide_True; [done | by right].
    + destruct (decide (c = col)) as [-> | Hne].
      * rewrite decide_True by left. by rewrite Hs, lookup_insert_eq.
      * rewrite decide_False.
        -- destruct (df_getitem d c); [by rewrite lookup_insert_ne | done].
        -- rewrite elem_of_cons. intros [-> | ?]; done.
Qed.

Lemma info_fold_other d (col : label) (cols : list label) (m : gmap label (ColumnInfo Cell)) :
  col ∉ cols →
  foldl (λ m col, match df_getitem d col with
                  | Ok s => <[col := summary d s]> m
                  | Raise _ => m
                  end) m cols !! col = m !! col.
Proof.
  revert m. induction cols as [|c cols IH]; intros m Hnot; cbn [foldl]; [done |].
  apply not_elem_of_cons in Hnot as [Hne Hnot]. rewrite IH by done.
  destruct (df_getitem d c); [by rewrite lookup_insert_ne | done].
Qed.

Lemma info_map_lookup d (col : label) :
  col ∈ columns d →
  ∃ s, df_getitem d col = Ok s ∧ info_map d !! col = Some (summary d s).
Proof.
  intros Hin. destruct (df_getitem_in d col Hin) as (s & Hs & _ & _).
  exists s. split; [done |]. unfold info_map.
  rewrite (info_fold_lookup d col s) by done. by rewrite decide_True.
Qed.

Lemma numeric_among_info_map d (cols : list label) :
  (∀ col, col ∈ cols → col ∈ columns d) →
  numeric_among (info_map d) cols = Ok (filter (λ col, numeric_label d col = true) cols).
Proof.
  intros Hsub. unfold numeric_among. apply comprehension_filter.
  intros col Hc. destruct (info_map_lookup d col (Hsub col Hc)) as (s & Hs & Hl).
  unfold dict_getitem, numeric_label. by rewrite Hl, Hs.
Qed.

Lemma rectangular_nonempty d s :
  rectangular d → s ∈ d → 0 < df_len d → ∃ v vs, values s = v :: vs.
Proof.
  intros Hr Hs Hlen. specialize (Hr s Hs).
  destruct (values s) as [|v vs]; simpl in Hr; [lia | by exists v, vs].
Qed.

Lemma analyze_column_run d (col : label) s g :
  rectangular d → s ∈ d → df_getitem d col = Ok s →
  analyze_column d col g =
  (Ok tt, {| data := data g; column_info := <[col := summary d s]> (column_info g) |}).
Proof.
  intros Hr Hin Hs. unfold analyze_column, bind, call, self_column_info, set_column_info, ret.
  rewrite Hs. unfold summary. destruct (0 <? df_len d) eqn:Hlen; [| done].
  apply Nat.ltb_lt in Hlen.
  destruct (rectangular_nonempty d s Hr Hin Hlen) as (v & vs & Hv).
  unfold iloc0. by rewrite Hv.
Qed.

Lemma for_each_analyze d (cols : list label) g :
  rectangular d → (∀ col, col ∈ cols → col ∈ columns d) →
  for_each cols (analyze_column d) g =
  (Ok tt, {| data := data g;
             column_info := foldl (λ m col, match df_getitem d col with
                                            | Ok s => <[col := summary d s]> m
                                            | Raise _ => m
                                            end) (column_info g) cols |}).
Proof.
  intros Hr. revert g. induction cols as [|c cols IH]; intros g Hsub; simpl.
  - by destruct g.
  - destruct (df_getitem_in d c) as (s & Hs & Hin & _); [apply Hsub; left |].
    unfold bind. rewrite (analyze_column_run d c s g Hr Hin Hs).
    rewrite IH by (intros col Hc; apply Hsub; by right). simpl. by rewrite Hs.
Qed.

Lemma analyze_columns_some d g :
  rectangular d → data g = Some d → _analyze_columns g = (Ok tt, loaded_with d).
Proof.
  intros Hr Hd. unfold _analyze_columns, bind, set_column_info, self_data. simpl.
  rewrite Hd. by rewrite for_each_analyze.
Qed.

Lemma analyze_columns_none g :
  data g = None →
  _analyze_columns g = (Raise (none_has_no "columns"), {| data := None; column_info := ∅ |}).
Proof.
  intros Hd. unfold _analyze_columns, bind, set_column_info, self_data. simpl. by rewrite Hd.
Qed.

Lemma loaded_with_Loaded d : Loaded (loaded_with d) d.
Proof. done. Qed.

Lemma summary_rectangular d s :
  rectangular d → s ∈ d →
  summary d s = {| info_dtype := dtype_str (dtype s);
                   info_sample := head (values s);
                   info_numeric := is_numeric_dtype (dtype s) |}.
Proof.
  intros Hr Hs. unfold summary. f_equal.
  destruct (0 <? df_len d) eqn:Hlen; [done |].
  apply Nat.ltb_ge in Hlen. specialize (Hr s Hs).
  destruct (values s); [done | simpl in Hr; lia].
Qed.

End AnalyzerFacts.

(* ================================================================= *)
(** ** The selector's branches *)

Section SelectorFacts.

Context `{Unicode} {Cell : Type}.
Implicit Types (d : list (Series Cell)) (s : Series Cell) (g : ChartGenerator Cell).

Lemma extract_columns_loaded g d request :
  Loaded g d → extract_columns request g = (selection request d, g).
Proof.
  intros [Hd Hi]. unfold extract_columns, selection, bind, self_data, call.
  rewrite Hd. fold (found_in request d).
  assert (Hnum : numeric_among (column_info g) (columns d) = Ok (numeric_cols_of d)).
  { rewrite Hi. by apply numeric_among_info_map. }
  destruct (found_in request d) as [[|x [|y found]]|e]; simpl.
  - unfold self_column_info. rewrite Hnum.
    destruct (columns d) as [|c0 rest] eqn:Hc; simpl.
    + assert (numeric_cols_of d = []) as -> by (unfold numeric_cols_of; by rewrite Hc).
      done.
    + destruct (numeric_cols_of d) as [|n1 [|n2 nums]]; simpl; try done.
      all: destruct rest; done.
  - unfold self_column_info. rewrite Hnum.
    destruct (numeric_cols_of d); done.
  - done.
  - done.
Qed.

(** Over a table whose labels are all [str], the comprehension keeps the
    names the request mentions, in column order. *)
Lemma found_in_names d request (names : list str) :
  columns d = Str <$> names →
  found_in request d =
    Ok (Str <$> filter (λ c, Re.search (Re.word (lower c)) (lower request) = true) names).
Proof.
  intros Hc. unfold found_in. rewrite Hc.
  rewrite (comprehension_filter _
             (λ col, match col with
                     | Str c => Re.search (Re.word (lower c)) (lower request)
                     | NonStr _ _ _ => false
                     end)).
  - f_equal. clear Hc. induction names as [|c names IH]; [done |].
    rewrite fmap_cons, !filter_cons, IH.
    by destruct (decide (Re.search (Re.word (lower c)) (lower request) = true)).
  - intros col Hin. apply list_elem_of_fmap in Hin as (c & -> & _). done.
Qed.

Lemma found_in_two request d l1 x l2 y l3 :
  columns d = Str <$> (l1 ++ x :: l2 ++ y :: l3) →
  mentions x request → mentions y request →
  (∀ c, c ∈ l1 ++ l2 → ¬ mentions c request) →
  ∃ rest, found_in request d = Ok (Str x :: Str y :: rest).
Proof.
  intros Hc Hx Hy Hn. rewrite (found_in_names d request _ Hc).
  eexists. rewrite filter_app, (filter_none _ l1), app_nil_l.
  - rewrite filter_cons_True by (by apply mentions_search).
    rewrite filter_app, (filter_none _ l2), app_nil_l.
    + rewrite filter_cons_True by (by apply mentions_search). done.
    + intros c Hin Hm. apply (Hn c); [apply elem_of_app; by right | by apply mentions_search].
  - intros c Hin Hm. apply (Hn c); [apply elem_of_app; by left | by apply mentions_search].
Qed.

Lemma found_in_one request d before x after :
  columns d = Str <$> (before ++ x :: after) →
  mentions x request →
  (∀ c, c ∈ before ++ after → ¬ mentions c request) →
  found_in request d = Ok [Str x].
Proof.
  intros Hc Hx Hn. rewrite (found_in_names d request _ Hc).
  rewrite filter_app, (filter_none _ before), app_nil_l.
  - rewrite filter_cons_True by (by apply mentions_search).
    rewrite (filter_none _ after); [done |].
    intros c Hin Hm. apply (Hn c); [apply elem_of_app; by right | by apply mentions_search].
  - intros c Hin Hm. apply (Hn c); [apply elem_of_app; by left | by apply mentions_search].
Qed.

Lemma found_in_none d request (names : list str) :
  columns d = Str <$> names →
  (∀ c, c ∈ names → ¬ mentions c request) → found_in request d = Ok [].
Proof.
  intros Hc Hn. rewrite (found_in_names d request _ Hc).
  rewrite (filter_none _ names); [done |].
  intros c Hin Hm. apply (Hn c Hin). by apply mentions_search.
Qed.

(** The comprehension raises at the first label that is not a [str]. *)
Lemma found_in_non_str d request (names : list str) type_name text repr rest :
  columns d = (Str <$> names) ++ NonStr type_name text repr :: rest →
  found_in request d = Raise (no_attribute type_name "lower").
Proof.
  intros Hc. unfold found_in. rewrite Hc. apply comprehension_raise; [| done].
  intros col Hin. apply list_elem_of_fmap in Hin as (c & -> & _). done.
Qed.

Lemma numeric_cols_none d :
  NoDup (columns d) →
  (∀ s, s ∈ d → is_numeric_dtype (dtype s) = false) → numeric_cols_of d = [].
Proof.
  intros Hnd Hn. unfold numeric_cols_of. apply filter_none.
  intros col Hin. unfold columns in Hin. apply list_elem_of_fmap in Hin as (s & -> & Hs).
  rewrite (numeric_label_nodup d s Hnd Hs), (Hn s Hs). done.
Qed.

Lemma numeric_cols_first d d1 s d2 :
  NoDup (columns d) → d = d1 ++ s :: d2 →
  is_numeric_dtype (dtype s) = true →
  (∀ t, t ∈ d1 → is_numeric_dtype (dtype t) = false) →
  ∃ rest, numeric_cols_of d = name s :: rest.
Proof.
  intros Hnd Hd Hs Hn. unfold numeric_cols_of.
  assert (columns d = (name <$> d1) ++ name s :: (name <$> d2)) as ->
    by (rewrite Hd; unfold columns; by rewrite fmap_app).
  rewrite filter_app.
  assert (∀ t, t ∈ d → numeric_label d (name t) = is_numeric_dtype (dtype t)) as Hlab
    by (intros t Ht; by apply numeric_label_nodup).
  rewrite filter_none.
  - rewrite filter_cons_True; [by eexists |].
    rewrite Hlab; [done |]. rewrite Hd. apply elem_of_app. right. left.
  - intros col Hin. apply list_elem_of_fmap in Hin as (t & -> & Ht).
    rewrite Hlab by (rewrite Hd; apply elem_of_app; by left).
    rewrite (Hn t Ht). done.
Qed.

Lemma numeric_cols_of_series d :
  NoDup (columns d) →
  numeric_cols_of d = name <$> filter (λ s, is_numeric_dtype (dtype s) = true) d.
Proof.
  intros Hnd. unfold numeric_cols_of, columns.
  assert (Hgen : ∀ l : list (Series Cell), (∀ s, s ∈ l → s ∈ d) →
            filter (λ col, numeric_label d col = true) (name <$> l) =
            name <$> filter (λ s, is_numeric_dtype (dtype s) = true) l).
  { induction l as [|t l IH]; intros Hsub; [done |].
    rewrite fmap_cons, !filter_cons.
    rewrite (numeric_label_nodup d t Hnd) by (apply Hsub; left).
    rewrite IH by (intros s Hs; apply Hsub; by right).
    by destruct (decide (is_numeric_dtype (dtype t) = true)). }
  by apply Hgen.
Qed.

(** Over a loaded table with a column whose labels are all [str], one of
    the three branches returns a pair. *)
Lemma selection_total d request :
  columns d ≠ [] → Forall is_str (columns d) →
  ∃ x y, selection request d = Ok (x, y).
Proof.
  intros Hne Hstr. destruct (Forall_is_str _ Hstr) as [names Hc].
  unfold selection. rewrite (found_in_names d request names Hc).
  destruct (Str <$> filter _ names) as [|x [|y found]].
  - destruct (columns d) as [|c0 rest]; [done |].
    destruct (2 <=? length (numeric_cols_of d)); by eexists _, _.
  - by eexists _, _.
  - by eexists _, _.
Qed.

(** Whatever the column info holds, a pair the selector returns is made
    of labels of the stored table. *)
Lemma extract_columns_members g d request x y g' :
  data g = Some d → extract_columns request g = (Ok (x, y), g') →
  x ∈ columns d ∧ y ∈ columns d.
Proof.
  intros Hd. unfold extract_columns, bind, self_data, call, self_column_info, ret.
  rewrite Hd.
  destruct (comprehension (col_in_request request) (columns d)) as [found|e] eqn:Hf; [| done].
  assert (Hfound : ∀ c, c ∈ found → c ∈ columns d)
    by (intros c; by apply (comprehension_in _ _ _ c Hf)).
  assert (Hnum : ∀ nums c, numeric_among (column_info g) (columns d) = Ok nums →
                           c ∈ nums → c ∈ columns d).
  { intros nums c Hn. by apply (comprehension_in _ _ _ c Hn). }
  assert (Hget : ∀ (l : list label) i c, list_getitem l i = Ok c → c ∈ l).
  { intros l i c. unfold list_getitem. destruct (l !! i) eqn:Hl; [| done].
    intros [= <-]. by eapply list_elem_of_lookup_2. }
  assert (Hidx : ∀ (l : list label) i c, index_getitem l i = Ok c → c ∈ l).
  { intros l i c. unfold index_getitem. destruct (l !! i) eqn:Hl; [| done].
    intros [= <-]. by eapply list_elem_of_lookup_2. }
  destruct (2 <=? length found).
  - destruct (list_getitem found 0) as [x0|] eqn:H0; [| done].
    destruct (list_getitem found 1) as [y0|] eqn:H1; [| done].
    intros [= <- <- _]. split; apply Hfound; by eapply Hget.
  - destruct (length found =? 1).
    + destruct (numeric_among (column_info g) (columns d)) as [nums|] eqn:Hn; [| done].
      destruct (list_getitem found 0) as [x0|] eqn:H0; [| done].
      destruct nums as [|n nums].
      * intros [= <- <- _]. split; apply Hfound; by eapply Hget.
      * simpl. intros [= <- <- _]. split; [apply Hfound; by eapply Hget |].
        apply (Hnum (n :: nums)); [done | left].
    + destruct (numeric_among (column_info g) (columns d)) as [nums|] eqn:Hn; [| done].
      destruct (2 <=? length nums).
      * destruct (index_getitem (columns d) 0) as [x0|] eqn:H0; [| done].
        destruct (list_getitem nums 0) as [y0|] eqn:H1; [| done].
        intros [= <- <- _]. split; [by eapply Hidx |].
        apply (Hnum nums); [done | by eapply Hget].
      * destruct (index_getitem (columns d) 0) as [x0|] eqn:H0; [| done].
        destruct (1 <? length (columns d)).
        -- destruct (index_getitem (columns d) 1) as [y0|] eqn:H1; [| done].
           intros [= <- <- _]. split; by eapply Hidx.
        -- intros [= <- <- _]. split; by eapply Hidx.
Qed.

Lemma extract_columns_state g request : (extract_columns request g).2 = g.
Proof.
  unfold extract_columns, bind, call, self_data, self_column_info, ret.
  repeat case_match; simplify_eq; done.
Qed.

(** Over ASCII text the selector does not depend on the version of the
    Unicode tables: it is the one [latin1] gives. *)
Lemma col_in_request_ascii `{!UnicodeAscii} request col :
  is_ascii request → ascii_label col →
  col_in_request request col = @col_in_request latin1 request col.
Proof.
  intros Hr Hc. destruct col as [c|]; [| done]. unfold col_in_request, ascii_label in *.
  rewrite (lower_ascii request Hr), (lower_ascii c Hc),
    (@lower_ascii latin1 latin1_ascii request Hr), (@lower_ascii latin1 latin1_ascii c Hc).
  f_equal. apply search_agree. intros a Ha.
  pose proof (is_ascii_lower request Hr) as Hl.
  unfold is_ascii in Hl. rewrite Forall_forall in Hl.
  by rewrite (is_word_ascii a (Hl a Ha)), (@is_word_ascii latin1 latin1_ascii a (Hl a Ha)).
Qed.

Lemma selection_ascii `{!UnicodeAscii} d request :
  is_ascii request → Forall ascii_label (columns d) →
  selection request d = @selection latin1 Cell request d.
Proof.
  intros Hr Hc. unfold selection, found_in.
  rewrite (comprehension_ext (col_in_request request) (@col_in_request latin1 request));
    [done |].
  intros col Hin. apply col_in_request_ascii; [done |].
  rewrite Forall_forall in Hc. by apply Hc.
Qed.

End SelectorFacts.

(* ================================================================= *)
(** ** The column selector *)

(** C2 (as amended): over a table whose column names are all strings,
    when at least two names are matched the selector returns the first two
    matched names in the table's column order, whatever their order in the
    request. A name is matched when its lower-case form occurs in the
    lower-case form of the request with a word boundary at each end; for a
    name whose lower-case form begins and ends with a word character that
    is a whole-word, case-insensitive occurrence. *)
Theorem extract_columns_two_matches `{Unicode} {Cell} (g : ChartGenerator Cell) d request
    l1 x l2 y l3 :
  data g = Some d →
  columns d = Str <$> (l1 ++ x :: l2 ++ y :: l3) →
  mentions x request → mentions y request →
  (∀ c, c ∈ l1 ++ l2 → ¬ mentions c request) →
  extract_columns request g = (Ok (Str x, Str y), g) ∧
  (∀ c, wordy c → mentions c request ↔ whole_word c request).
Proof.
  intros Hd Hc Hx Hy Hn. split; [| intros c Hw; by apply mentions_whole_word].
  destruct (found_in_two request d l1 x l2 y l3 Hc Hx Hy Hn) as [rest Hf].
  unfold extract_columns, bind, self_data, call. rewrite Hd.
  fold (found_in request d). rewrite Hf. done.
Qed.

(** C3 (as amended): over a loaded table whose column names are distinct
    strings, when exactly one name is matched, x is that name and y is the
    first numeric column of the table, which may be x itself; with no
    numeric column y is x. *)
Theorem extract_columns_one_match `{Unicode} {Cell} (g : ChartGenerator Cell) d request
    before x after :
  Loaded g d → NoDup (columns d) →
  columns d = Str <$> (before ++ x :: after) →
  mentions x request →
  (∀ c, c ∈ before ++ after → ¬ mentions c request) →
  ∃ y, extract_columns request g = (Ok (Str x, y), g) ∧
       (∀ d1 s d2, d = d1 ++ s :: d2 →
                   is_numeric_dtype (dtype s) = true →
                   (∀ t, t ∈ d1 → is_numeric_dtype (dtype t) = false) →
                   y = name s) ∧
       ((∀ s, s ∈ d → is_numeric_dtype (dtype s) = false) → y = Str x).
Proof.
  intros Hl Hnd Hc Hx Hn.
  rewrite (extract_columns_loaded g d request Hl). unfold selection.
  rewrite (found_in_one request d before x after Hc Hx Hn).
  eexists. split; [reflexivity |]. split.
  - intros d1 s d2 Hd Hs Hfirst.
    destruct (numeric_cols_first d d1 s d2 Hnd Hd Hs Hfirst) as [rest ->]. done.
  - intros Hnone. by rewrite (numeric_cols_none d Hnd Hnone).
Qed.

(** C9: whatever the selector returns over a stored table is a pair of
    labels of that table, whatever the column info holds; and over a loaded
    table with at least one column it does return a pair when the labels
    are all strings. (It raises when one of them is not: [col.lower()]
    fails.) *)
Theorem extract_columns_in_columns `{Unicode} {Cell} (g : ChartGenerator Cell) d request :
  data g = Some d →
  (∀ x y g', extract_columns request g = (Ok (x, y), g') →
             x ∈ columns d ∧ y ∈ columns d) ∧
  (column_info g = info_map d → columns d ≠ [] → Forall is_str (columns d) →
   ∃ x y, extract_columns request g = (Ok (x, y), g)).
Proof.
  intros Hd. split.
  - intros x y g' Hxy. by eapply extract_columns_members.
  - intros Hi Hne Hstr. rewrite (extract_columns_loaded g d request (conj Hd Hi)).
    destruct (selection_total d request Hne Hstr) as (x & y & ->). by exists x, y.
Qed.

(** Over a loaded table with a single column, named by a string, the
    selector returns that column as both x and y, for every request. *)
Theorem extract_columns_single_column `{Unicode} {Cell} (g : ChartGenerator Cell) s request :
  Loaded g [s] → is_str (name s) →
  extract_columns request g = (Ok (name s, name s), g).
Proof.
  intros Hl Hs. rewrite (extract_columns_loaded g [s] request Hl). unfold selection.
  destruct (name s) as [n|] eqn:Hn; [| done].
  rewrite (found_in_names [s] request [n]) by (simpl; by rewrite Hn).
  assert (Hn0 : numeric_cols_of [s] = [] ∨ numeric_cols_of [s] = [Str n]).
  { unfold numeric_cols_of. simpl. rewrite Hn, filter_cons, filter_nil. case_decide; auto. }
  rewrite filter_cons, filter_nil. simpl. rewrite Hn.
  case_decide; destruct Hn0 as [-> | ->]; done.
Qed.

(** C4 at its failing input: a load of an empty sheet succeeds and leaves a
    table with no column, over which the selector raises [IndexError] for
    every request. *)
Theorem extract_columns_no_columns `{Unicode} (request : str) :
  load_data unreadable empty_sheet (lit "empty.xlsx") init = (Ok true, loaded_with no_columns) ∧
  extract_columns request (loaded_with no_columns) =
    (Raise (IndexError (lit "index 0 is out of bounds for axis 0 with size 0")),
     loaded_with no_columns).
Proof.
  split.
  - by vm_compute.
  - apply (extract_columns_loaded (loaded_with no_columns) no_columns request).
    apply loaded_with_Loaded.
Qed.

(** When the request mentions no column name (all of them distinct
    strings), x is the first column; y is the first numeric column if the
    table has at least two numeric columns (so y is x again when the first
    column is numeric), and otherwise the second column, numeric or not, or
    the first when there is no second. *)
Theorem extract_columns_no_match `{Unicode} {Cell} (g : ChartGenerator Cell) d request
    s0 rest names :
  Loaded g d → NoDup (columns d) → d = s0 :: rest →
  columns d = Str <$> names →
  (∀ c, c ∈ names → ¬ mentions c request) →
  extract_columns request g =
    (Ok (name s0,
         match filter (λ s, is_numeric_dtype (dtype s) = true) d with
         | n1 :: _ :: _ => name n1
         | _ => match rest with
                | s1 :: _ => name s1
                | [] => name s0
                end
         end), g).
Proof.
  intros Hl Hnd Hd Hc Hn. rewrite (extract_columns_loaded g d request Hl). unfold selection.
  rewrite (found_in_none d request names Hc Hn), (numeric_cols_of_series d Hnd).
  destruct (filter (λ s, is_numeric_dtype (dtype s) = true) d) as [|n1 [|n2 nums]];
    rewrite Hd; simpl; by destruct rest.
Qed.

(** A column name whose lower-case form begins or ends with a character
    that is not a word character is matched only at an occurrence that
    touches a word character on that side: "(net) sales ($)" is found in
    "total(net) sales ($)2024", but not after a space or at the end of the
    request. *)
Theorem col_in_request_punctuated `{Unicode} (request col : str) :
  col_in_request request (Str col) = Ok true → lower col ≠ [] →
  ∃ pre post,
    lower request = pre ++ lower col ++ post ∧
    (Re.word_at (head (lower col)) = false → Re.word_at (last pre) = true) ∧
    (Re.word_at (last (lower col)) = false → Re.word_at (head post) = true).
Proof.
  intros Hm Hne. apply col_in_request_mentions in Hm as (pre & post & Hr & H1 & H2).
  exists pre, post. split; [done |].
  assert (Re.word_at (head (lower col ++ post)) = Re.word_at (head (lower col))) as Hh
    by (by destruct (lower col)).
  assert (Re.word_at (last (pre ++ lower col)) = Re.word_at (last (lower col))) as Hl.
  { rewrite last_app. destruct (last (lower col)) eqn:Hlast; [done |].
    by apply last_None in Hlast. }
  rewrite Hh in H1. rewrite Hl in H2. split.
  - intros Hc. rewrite Hc in H1. by destruct (Re.word_at (last pre)).
  - intros Hc. rewrite Hc in H2. by destruct (Re.word_at (head post)).
Qed.

(** The selector's results on the two tables of the counterexamples below
    are the same under every version of the Unicode tables: the requests
    and the column names are ASCII. *)
Lemma selections_on_ascii `{Unicode} `{!UnicodeAscii} :
  extract_columns (lit "sales by region") (loaded_with region_sales) =
    (Ok (Str (lit "Region"), Str (lit "Sales")), loaded_with region_sales) ∧
  extract_columns (lit "plot sales") (loaded_with sales_profit) =
    (Ok (Str (lit "Sales"), Str (lit "Sales")), loaded_with sales_profit).
Proof.
  split.
  - rewrite (extract_columns_loaded _ region_sales) by apply loaded_with_Loaded.
    rewrite selection_ascii.
    + by vm_compute.
    + by apply is_ascii_decide.
    + repeat constructor; by apply is_ascii_decide.
  - rewrite (extract_columns_loaded _ sales_profit) by apply loaded_with_Loaded.
    rewrite selection_ascii.
    + by vm_compute.
    + by apply is_ascii_decide.
    + repeat constructor; by apply is_ascii_decide.
Qed.

Section SelectorExamples.

#[local] Existing Instance latin1.

Lemma extract_columns_two_matches_witness :
  extract_columns (lit "Sales by region") (loaded_with month_region_sales) =
    (Ok (Str (lit "Region"), Str (lit "Sales")), loaded_with month_region_sales) ∧
  (∀ c, wordy c → mentions c (lit "Sales by region") ↔ whole_word c (lit "Sales by region")).
Proof.
  apply (extract_columns_two_matches (loaded_with month_region_sales) month_region_sales
           (lit "Sales by region") [lit "Month"] (lit "Region") [] (lit "Sales") []).
  - reflexivity.
  - reflexivity.
  - apply mentions_search. vm_compute. reflexivity.
  - apply mentions_search. vm_compute. reflexivity.
  - intros c Hc Hm. apply mentions_search in Hm.
    apply list_elem_of_singleton in Hc. subst c. vm_compute in Hm. discriminate.
Defined.

(** C2 (as stated) fails: with the columns [Region, Sales] and the request
    "sales by region" both names occur as whole words, "sales" first; the
    selector returns (Region, Sales), not (Sales, Region). *)
Lemma extract_columns_request_order_counterexample :
  columns region_sales = Str <$> [lit "Region"; lit "Sales"] ∧
  whole_word (lit "Region") (lit "sales by region") ∧
  whole_word (lit "Sales") (lit "sales by region") ∧
  by_first_occurrence (lit "sales by region") [lit "Region"; lit "Sales"] =
    [lit "Sales"; lit "Region"] ∧
  extract_columns (lit "sales by region") (loaded_with region_sales) =
    (Ok (Str (lit "Region"), Str (lit "Sales")), loaded_with region_sales) ∧
  (extract_columns (lit "sales by region") (loaded_with region_sales)).1 ≠
    Ok (Str (lit "Sales"), Str (lit "Region")).
Proof.
  split; [| split; [| split; [| split; [| split]]]].
  - reflexivity.
  - apply mentions_whole_word; [done |]. apply mentions_search. by vm_compute.
  - apply mentions_whole_word; [done |]. apply mentions_search. by vm_compute.
  - by vm_compute.
  - by vm_compute.
  - vm_compute. discriminate.
Qed.

(** "pie chart of sales" over [Region, Sales]: only Sales is matched, and
    Sales, the first numeric column, is y as well. *)
Lemma extract_columns_one_match_witness :
  extract_columns (lit "pie chart of sales") (loaded_with region_sales) =
    (Ok (Str (lit "Sales"), Str (lit "Sales")), loaded_with region_sales).
Proof.
  destruct (extract_columns_one_match (loaded_with region_sales) region_sales
              (lit "pie chart of sales") [lit "Region"] (lit "Sales") [])
    as (y & Hxy & Hnumeric & _).
  - split; reflexivity.
  - apply (bool_decide_unpack _). vm_compute. exact I.
  - reflexivity.
  - apply mentions_search. vm_compute. reflexivity.
  - intros c Hc Hm. apply mentions_search in Hm.
    apply list_elem_of_singleton in Hc. subst c. vm_compute in Hm. discriminate.
  - rewrite Hxy.
    rewrite (Hnumeric [column "Region" Object [Text "North"; Text "South"]]
               (column "Sales" Int64 [Num 120; Num 80]) []); [reflexivity | reflexivity | reflexivity |].
    intros t Ht. apply list_elem_of_singleton in Ht. subst t. reflexivity.
Defined.

(** C3 (as stated) fails: with the numeric columns [Sales, Profit] and the
    request "plot sales" only Sales is matched, and Profit is a numeric
    column distinct from it; the selector returns (Sales, Sales). *)
Lemma extract_columns_distinct_numeric_counterexample :
  found_in (lit "plot sales") sales_profit = Ok [Str (lit "Sales")] ∧
  first_numeric_other sales_profit (Str (lit "Sales")) = Some (Str (lit "Profit")) ∧
  extract_columns (lit "plot sales") (loaded_with sales_profit) =
    (Ok (Str (lit "Sales"), Str (lit "Sales")), loaded_with sales_profit) ∧
  (extract_columns (lit "plot sales") (loaded_with sales_profit)).1 ≠
    Ok (Str (lit "Sales"), Str (lit "Profit")).
Proof.
  split; [| split; [| split]].
  - by vm_compute.
  - by vm_compute.
  - by vm_compute.
  - vm_compute. discriminate.
Qed.

Lemma extract_columns_in_columns_witness :
  (∀ x y g', extract_columns (lit "draw something") (loaded_with region_sales) =
               (Ok (x, y), g') →
             x ∈ columns region_sales ∧ y ∈ columns region_sales) ∧
  (∃ x y, extract_columns (lit "draw something") (loaded_with region_sales) =
            (Ok (x, y), loaded_with region_sales)).
Proof.
  destruct (extract_columns_in_columns (loaded_with region_sales) region_sales
              (lit "draw something")) as [Hin Hret].
  - reflexivity.
  - split; [exact Hin |]. apply Hret.
    + reflexivity.
    + vm_compute. discriminate.
    + repeat constructor.
Defined.

Lemma extract_columns_single_column_witness :
  extract_columns (lit "bar chart") (loaded_with [column "Sales" Int64 [Num 1]]) =
    (Ok (Str (lit "Sales"), Str (lit "Sales")), loaded_with [column "Sales" Int64 [Num 1]]).
Proof.
  apply (extract_columns_single_column
           (loaded_with [column "Sales" Int64 [Num 1]]) (column "Sales" Int64 [Num 1])).
  - split; reflexivity.
  - exact I.
Defined.

Lemma extract_columns_no_match_witness :
  extract_columns (lit "draw something") (loaded_with sales_profit) =
    (Ok (Str (lit "Sales"), Str (lit "Sales")), loaded_with sales_profit).
Proof.
  apply (extract_columns_no_match (loaded_with sales_profit) sales_profit
           (lit "draw something")
           (column "Sales" Int64 [Num 120; Num 80]) [column "Profit" Int64 [Num 30; Num 10]]
           [lit "Sales"; lit "Profit"]).
  - split; reflexivity.
  - apply (bool_decide_unpack _). vm_compute. exact I.
  - reflexivity.
  - reflexivity.
  - intros c Hc Hm. apply mentions_search in Hm.
    repeat (apply elem_of_cons in Hc as [-> | Hc]; [vm_compute in Hm; discriminate |]).
    by apply elem_of_nil in Hc.
Defined.

Lemma col_in_request_punctuated_witness :
  ∃ pre post,
    lower (lit "Total(net) sales ($)2024") = pre ++ lower (lit "(Net) Sales ($)") ++ post ∧
    Re.word_at (last pre) = true ∧ Re.word_at (head post) = true.
Proof.
  destruct (col_in_request_punctuated (lit "Total(net) sales ($)2024") (lit "(Net) Sales ($)"))
    as (pre & post & Hs & Hpre & Hpost).
  - vm_compute. reflexivity.
  - vm_compute. discriminate.
  - exists pre, post. split; [exact Hs |]. split; [apply Hpre | apply Hpost]; reflexivity.
Defined.

(** Text beyond ASCII: "pieé" is one word and holds no whole-word "pie";
    É lowers to é, so "élan" mentions the column Élan and Sales, the first
    numeric column, is y; "salesé" mentions no column. *)
Example beyond_ascii :
  lit "Élan" = [201; 108; 97; 110]%N ∧
  determine_chart_type (lit "pieé") = lit "bar" ∧
  extract_columns (lit "élan") (loaded_with sales_elan) =
    (Ok (Str (lit "Élan"), Str (lit "Sales")), loaded_with sales_elan) ∧
  extract_columns (lit "salesé") (loaded_with sales_elan) =
    (Ok (Str (lit "Sales"), Str (lit "Élan")), loaded_with sales_elan).
Proof. repeat split; vm_compute; reflexivity. Qed.

End SelectorExamples.

(* ================================================================= *)
(** ** The loader *)

Section LoaderFacts.

Context {Cell : Type}.
Variable read_csv read_excel : source → outcome (list (Series Cell)).
Implicit Types (d : list (Series Cell)) (g : ChartGenerator Cell).

Lemma analyze_column_data d (col : label) g : data (analyze_column d col g).2 = data g.
Proof.
  unfold analyze_column, bind, call, self_column_info, set_column_info, ret.
  destruct (df_getitem d col) as [s|e]; [| done].
  destruct (0 <? df_len d); [| done].
  destruct (iloc0 s); done.
Qed.

Lemma for_each_analyze_data d (cols : list label) g :
  data (for_each cols (analyze_column d) g).2 = data g.
Proof.
  revert g. induction cols as [|c cols IH]; intros g; simpl; [done |].
  unfold bind. pose proof (analyze_column_data d c g) as Hc.
  destruct (analyze_column d c g) as [[[]|e] g']; simpl in *; [| done].
  by rewrite IH.
Qed.

Lemma analyze_columns_data g : data (_analyze_columns g).2 = data g.
Proof.
  unfold _analyze_columns, bind, set_column_info, self_data. simpl.
  destruct (data g) as [d|] eqn:Hd; [| done].
  by rewrite for_each_analyze_data.
Qed.

Lemma load_from_unrecognized name src g :
  recognized name = false →
  load_from read_csv read_excel name src g =
  match _analyze_columns g with
  | (Ok _, g') => (Ok true, g')
  | (Raise e, g') => (Raise (DataLoadError (exn_str e)), g')
  end.
Proof.
  unfold recognized. rewrite !orb_false_iff. intros [[Hcsv Hxls] Hxlsx].
  unfold load_from, try_except, bind. rewrite Hcsv, Hxls, Hxlsx. simpl.
  destruct (_analyze_columns g) as [[[]|e] g']; done.
Qed.

Lemma load_name c g :
  load read_csv read_excel c g =
  load_from read_csv read_excel (call_name c)
    (match c with ByPath p => FilePath p | ByUpload f => Buffer f end) g.
Proof. by destruct c. Qed.

Lemma load_failed_fresh c :
  rectangular_reader read_csv → rectangular_reader read_excel →
  is_ok (load read_csv read_excel c init).1 = false →
  (load read_csv read_excel c init).2 = init.
Proof.
  intros Hcsv Hxls. rewrite load_name.
  generalize (match c with ByPath p => FilePath p | ByUpload f => Buffer f end) as src.
  generalize (call_name c) as name. intros name src.
  unfold load_from, try_except, bind, call, set_data, ret, raise.
  destruct (endswith name (lit ".csv")).
  - destruct (read_csv src) as [d|e] eqn:Hsrc; [| done].
    simpl. by rewrite (analyze_columns_some d {| data := Some d; column_info := ∅ |} (Hcsv _ _ Hsrc) eq_refl).
  - destruct (endswith name (lit ".xls") || endswith name (lit ".xlsx")).
    + destruct (read_excel src) as [d|e] eqn:Hsrc; [| done].
      simpl. by rewrite (analyze_columns_some d {| data := Some d; column_info := ∅ |} (Hxls _ _ Hsrc) eq_refl).
    + rewrite (analyze_columns_none init) by done. done.
Qed.

Lemma load_consistent c g :
  rectangular_reader read_csv → rectangular_reader read_excel →
  Consistent g → Consistent (load read_csv read_excel c g).2.
Proof.
  intros Hcsv Hxls Hg. rewrite load_name.
  generalize (match c with ByPath p => FilePath p | ByUpload f => Buffer f end) as src.
  generalize (call_name c) as name. intros name src.
  assert (Hread : ∀ d, rectangular d →
            Consistent (_analyze_columns {| data := Some d; column_info := column_info g |}).2).
  { intros d Hr.
    rewrite (analyze_columns_some d {| data := Some d; column_info := column_info g |} Hr eq_refl).
    by split. }
  unfold load_from, try_except, bind, call, set_data, ret, raise.
  destruct (endswith name (lit ".csv")).
  - destruct (read_csv src) as [d|e] eqn:Hsrc; [| done].
    specialize (Hread d (Hcsv _ _ Hsrc)).
    by destruct (_analyze_columns _) as [[[]|e] g'].
  - destruct (endswith name (lit ".xls") || endswith name (lit ".xlsx")).
    + destruct (read_excel src) as [d|e] eqn:Hsrc; [| done].
      specialize (Hread d (Hxls _ _ Hsrc)).
      by destruct (_analyze_columns _) as [[[]|e] g'].
    + unfold Consistent in Hg. destruct (data g) as [d|] eqn:Hd.
      * destruct Hg as [Hr Hi]. rewrite (analyze_columns_some d g Hr Hd). by split.
      * by rewrite (analyze_columns_none g Hd).
Qed.

End LoaderFacts.

(** C5 (as amended): a load call whose file name has none of the suffixes
    [.csv], [.xls], [.xlsx] leaves the stored table as it was. With no
    table stored it is not silent: the analyzer fails on the missing table
    and the call raises the load error, the generator still holding no
    table. With a table stored it raises nothing, analyzes that table again
    and returns [True]. *)
Theorem load_unrecognized_suffix {Cell}
    (read_csv read_excel : source → outcome (list (Series Cell)))
    (c : load_call) (g : ChartGenerator Cell) :
  recognized (call_name c) = false →
  data (load read_csv read_excel c g).2 = data g ∧
  (data g = None →
   load read_csv read_excel c g =
     (Raise (DataLoadError (lit "'NoneType' object has no attribute 'columns'")),
      {| data := None; column_info := ∅ |})) ∧
  (∀ d, data g = Some d → rectangular d →
        load read_csv read_excel c g = (Ok true, loaded_with d)).
Proof.
  intros Hun. rewrite load_name, (load_from_unrecognized _ _ _ _ _ Hun).
  split; [| split].
  - pose proof (analyze_columns_data g) as Hd.
    destruct (_analyze_columns g) as [[[]|e] g']; done.
  - intros Hnone. by rewrite (analyze_columns_none g Hnone).
  - intros d Hd Hr. by rewrite (analyze_columns_some d g Hr Hd).
Qed.

Lemma load_unrecognized_suffix_witness :
  data (load unreadable empty_sheet (ByPath (lit "notes.txt")) init).2 = data init ∧
  (data (init (Cell:=cell)) = None →
   load unreadable empty_sheet (ByPath (lit "notes.txt")) init =
     (Raise (DataLoadError (lit "'NoneType' object has no attribute 'columns'")),
      {| data := None; column_info := ∅ |})) ∧
  (∀ d, data init = Some d → rectangular d →
        load unreadable empty_sheet (ByPath (lit "notes.txt")) init = (Ok true, loaded_with d)).
Proof.
  apply (load_unrecognized_suffix unreadable empty_sheet (ByPath (lit "notes.txt")) init).
  vm_compute. reflexivity.
Defined.

(** C5 (as stated) fails: on a fresh generator, loading "notes.txt" is not
    a silent no-op; it raises the load error. *)
Lemma load_unrecognized_suffix_counterexample :
  recognized (lit "notes.txt") = false ∧
  load_data unreadable empty_sheet (lit "notes.txt") init =
    (Raise (ValueError (lit "Error loading file: 'NoneType' object has no attribute 'columns'")),
     init) ∧
  load_data_from_upload unreadable empty_sheet
    {| upload_name := lit "notes.txt"; upload_bytes := [] |} init =
    (Raise (ValueError (lit "Error loading file: 'NoneType' object has no attribute 'columns'")),
     init) ∧
  is_ok (load_data unreadable empty_sheet (lit "notes.txt") init).1 = false.
Proof.
  split; [| split; [| split]].
  - by vm_compute.
  - by vm_compute.
  - by vm_compute.
  - by vm_compute.
Qed.

Lemma loads_failed_fresh {Cell}
    (read_csv read_excel : source → outcome (list (Series Cell))) calls :
  rectangular_reader read_csv → rectangular_reader read_excel →
  Forall (λ o, is_ok o = false) (loads read_csv read_excel calls init).1 →
  (loads read_csv read_excel calls init).2 = init.
Proof.
  intros Hcsv Hxls. induction calls as [|c calls IH]; simpl; [done |].
  intros Hall. apply Forall_cons in Hall as [Hc Hrest].
  rewrite (load_failed_fresh read_csv read_excel c Hcsv Hxls Hc) in *. by apply IH.
Qed.

Lemma rectangular_region_sales : rectangular region_sales.
Proof.
  intros s Hs. unfold region_sales in Hs.
  repeat (apply elem_of_cons in Hs as [-> | Hs]; [reflexivity |]).
  by apply elem_of_nil in Hs.
Qed.

Lemma rectangular_sales_profit : rectangular sales_profit.
Proof.
  intros s Hs. unfold sales_profit in Hs.
  repeat (apply elem_of_cons in Hs as [-> | Hs]; [reflexivity |]).
  by apply elem_of_nil in Hs.
Qed.

(** The data-model invariant: after any sequence of load calls on a fresh
    generator the column info is the analysis of the stored table, so a
    generator that holds a table is a loaded one. *)
Theorem loads_consistent {Cell}
    (read_csv read_excel : source → outcome (list (Series Cell))) calls :
  rectangular_reader read_csv → rectangular_reader read_excel →
  Consistent (loads read_csv read_excel calls init).2 ∧
  (∀ d, data (loads read_csv read_excel calls init).2 = Some d →
        Loaded (loads read_csv read_excel calls init).2 d).
Proof.
  intros Hcsv Hxls.
  assert (Hinv : ∀ g, Consistent g → Consistent (loads read_csv read_excel calls g).2).
  { induction calls as [|c calls IH]; intros g Hg; simpl; [done |].
    apply IH. by apply load_consistent. }
  assert (Hc : Consistent (loads read_csv read_excel calls init).2) by (by apply Hinv).
  split; [done |]. intros d Hd. unfold Consistent in Hc. rewrite Hd in Hc.
  destruct Hc as [_ Hi]. by split.
Qed.

(** A history over two readers that return tables with rows: a load of
    "q3.csv", a call with an unrecognized suffix, a path that cannot be
    parsed, and an upload of a workbook. Every call but the third returns
    [True], and the generator ends with the workbook's table and the
    analysis of that table alone. *)
Lemma loads_consistent_witness :
  let calls := [ByPath (lit "q3.csv"); ByPath (lit "notes.txt"); ByPath (lit "q4.csv");
                ByUpload {| upload_name := lit "book.xlsx"; upload_bytes := [] |}] in
  (loads csv_files workbooks calls init).1 =
    [Ok true; Ok true;
     Raise (DataLoadError (lit "No columns to parse from file")); Ok true] ∧
  data (loads csv_files workbooks calls init).2 = Some sales_profit ∧
  Consistent (loads csv_files workbooks calls init).2 ∧
  Loaded (loads csv_files workbooks calls init).2 sales_profit.
Proof.
  intros calls.
  destruct (loads_consistent csv_files workbooks calls) as [Hcons Hloaded].
  - intros src d. unfold csv_files. destruct src as [p|f]; [| done].
    case_decide; [| done]. intros [= <-]. apply rectangular_region_sales.
  - intros src d. unfold workbooks. destruct src as [p|f]; [done |].
    intros [= <-]. apply rectangular_sales_profit.
  - split; [by vm_compute |]. split; [by vm_compute |]. split; [exact Hcons |].
    apply Hloaded. by vm_compute.
Defined.

(** C10: before any successful load, whatever load calls have failed so
    far, the preview raises [AttributeError] (not the no-data error), for
    every [n]; the column info call succeeds with the empty mapping. *)
Theorem preview_before_load {Cell}
    (read_csv read_excel : source → outcome (list (Series Cell))) calls (n : Z) :
  rectangular_reader read_csv → rectangular_reader read_excel →
  Forall (λ o, is_ok o = false) (loads read_csv read_excel calls init).1 →
  get_data_preview n (loads read_csv read_excel calls init).2 =
    (Raise (AttributeError (lit "'NoneType' object has no attribute 'head'")),
     (loads read_csv read_excel calls init).2) ∧
  AttributeError (lit "'NoneType' object has no attribute 'head'") ≠ NoDataError ∧
  get_column_info (loads read_csv read_excel calls init).2 =
    (Ok ∅, (loads read_csv read_excel calls init).2).
Proof.
  intros Hcsv Hxls Hall.
  rewrite (loads_failed_fresh read_csv read_excel calls Hcsv Hxls Hall).
  split; [done |]. split; [| done]. unfold NoDataError. discriminate.
Qed.

Lemma preview_before_load_witness :
  get_data_preview 5
      (loads unreadable empty_sheet [ByPath (lit "notes.txt"); ByPath (lit "broken.csv")] init).2 =
    (Raise (AttributeError (lit "'NoneType' object has no attribute 'head'")),
     (loads unreadable empty_sheet [ByPath (lit "notes.txt"); ByPath (lit "broken.csv")] init).2) ∧
  AttributeError (lit "'NoneType' object has no attribute 'head'") ≠ NoDataError ∧
  get_column_info
      (loads unreadable empty_sheet [ByPath (lit "notes.txt"); ByPath (lit "broken.csv")] init).2 =
    (Ok ∅, (loads unreadable empty_sheet [ByPath (lit "notes.txt"); ByPath (lit "broken.csv")] init).2).
Proof.
  apply (preview_before_load unreadable empty_sheet
           [ByPath (lit "notes.txt"); ByPath (lit "broken.csv")] 5).
  - intros src d Hr. discriminate Hr.
  - intros src d Hr. injection Hr as <-. intros s Hs. by apply elem_of_nil in Hs.
  - vm_compute. repeat constructor.
Defined.

(* ================================================================= *)
(** ** More on the loader and the analyzer *)

Section LoaderMore.

Context {Cell : Type}.
Variable read_csv read_excel : source → outcome (list (Series Cell)).
Implicit Types (d : list (Series Cell)) (g : ChartGenerator Cell).

Lemma load_dispatch c g k :
  dispatch (call_name c) = Some k →
  load read_csv read_excel c g =
  match reader_of read_csv read_excel k (call_source c) with
  | Ok d =>
      match _analyze_columns {| data := Some d; column_info := column_info g |} with
      | (Ok _, g') => (Ok true, g')
      | (Raise e, g') => (Raise (DataLoadError (exn_str e)), g')
      end
  | Raise e => (Raise (DataLoadError (exn_str e)), g)
  end.
Proof.
  intros Hk. rewrite load_name. fold (call_source c).
  unfold dispatch in Hk. unfold load_from, try_except, bind, call, set_data, ret, raise.
  destruct (endswith (call_name c) (lit ".csv")).
  - injection Hk as <-. simpl. destruct (read_csv (call_source c)) as [d|e]; [| done].
    by destruct (_analyze_columns _) as [[[]|e] g'].
  - destruct (endswith (call_name c) (lit ".xls") || endswith (call_name c) (lit ".xlsx"));
      [| done].
    injection Hk as <-. simpl. destruct (read_excel (call_source c)) as [d|e]; [| done].
    by destruct (_analyze_columns _) as [[[]|e] g'].
Qed.

End LoaderMore.

(** A load call whose file name has a recognized suffix and whose reader
    returns a table replaces whatever the generator held: it returns
    [True], stores the new table, and the column info is the analysis of
    that table alone. *)
Theorem load_success {Cell}
    (read_csv read_excel : source → outcome (list (Series Cell)))
    (c : load_call) (g : ChartGenerator Cell) k d :
  dispatch (call_name c) = Some k →
  reader_of read_csv read_excel k (call_source c) = Ok d →
  rectangular d →
  load read_csv read_excel c g = (Ok true, loaded_with d).
Proof.
  intros Hk Hread Hr. rewrite (load_dispatch read_csv read_excel c g k Hk), Hread.
  by rewrite (analyze_columns_some d {| data := Some d; column_info := column_info g |} Hr eq_refl).
Qed.

Lemma load_success_witness :
  load reads_region_sales empty_sheet (ByPath (lit "q3.csv")) (loaded_with sales_profit) =
    (Ok true, loaded_with region_sales).
Proof.
  apply (load_success reads_region_sales empty_sheet (ByPath (lit "q3.csv"))
           (loaded_with sales_profit) CsvReader region_sales).
  - reflexivity.
  - reflexivity.
  - apply rectangular_region_sales.
Defined.

(** A load call whose reader raises fails with [ValueError] carrying
    "Error loading file: " and the reader's message, and leaves the
    generator exactly as it was: the table and the column info of an
    earlier load stay. *)
Theorem load_reader_failure {Cell}
    (read_csv read_excel : source → outcome (list (Series Cell)))
    (c : load_call) (g : ChartGenerator Cell) k e :
  dispatch (call_name c) = Some k →
  reader_of read_csv read_excel k (call_source c) = Raise e →
  load read_csv read_excel c g =
    (Raise (ValueError (lit "Error loading file: " ++ exn_str e)), g).
Proof.
  intros Hk Hread. by rewrite (load_dispatch read_csv read_excel c g k Hk), Hread.
Qed.

Lemma load_reader_failure_witness :
  load unreadable empty_sheet (ByPath (lit "broken.csv")) (loaded_with region_sales) =
    (Raise (ValueError (lit "Error loading file: " ++
                        exn_str (ReaderError (lit "No columns to parse from file")))),
     loaded_with region_sales).
Proof.
  apply (load_reader_failure unreadable empty_sheet (ByPath (lit "broken.csv"))
           (loaded_with region_sales) CsvReader).
  - reflexivity.
  - reflexivity.
Defined.

(** The analyzer, run over a stored table with distinct labels, discards
    whatever column info was there and records exactly one entry per
    column: the dtype's name, the value of the first row (none when the
    table has no rows) and whether the dtype is numeric. *)
Theorem analyze_columns_content {Cell} (g : ChartGenerator Cell) d :
  data g = Some d → rectangular d → NoDup (columns d) →
  ∃ g', _analyze_columns g = (Ok tt, g') ∧ data g' = Some d ∧
        (∀ col, is_Some (column_info g' !! col) ↔ col ∈ columns d) ∧
        (∀ s, s ∈ d →
              column_info g' !! name s =
                Some {| info_dtype := dtype_str (dtype s);
                        info_sample := head (values s);
                        info_numeric := is_numeric_dtype (dtype s) |}).
Proof.
  intros Hd Hr Hnd. exists (loaded_with d).
  split; [by apply analyze_columns_some |]. split; [done |]. split.
  - intros col. simpl. split.
    + intros Hsome. destruct (decide (col ∈ columns d)) as [Hin | Hout]; [done |].
      unfold info_map in Hsome. rewrite info_fold_other in Hsome by done.
      rewrite lookup_empty in Hsome. by destruct Hsome.
    + intros Hin. destruct (info_map_lookup d col Hin) as (s & _ & ->). by eexists.
  - intros s Hs. simpl.
    destruct (info_map_lookup d (name s)) as (t & Ht & ->).
    { unfold columns. by apply list_elem_of_fmap_2. }
    rewrite (df_getitem_nodup d s Hnd Hs) in Ht. injection Ht as <-.
    by rewrite (summary_rectangular d s Hr Hs).
Qed.

Lemma analyze_columns_content_witness :
  ∃ g', _analyze_columns (loaded_with sales_profit) = (Ok tt, g') ∧
        data g' = Some sales_profit ∧
        (∀ col, is_Some (column_info g' !! col) ↔ col ∈ columns sales_profit) ∧
        (∀ s, s ∈ sales_profit →
              column_info g' !! name s =
                Some {| info_dtype := dtype_str (dtype s);
                        info_sample := head (values s);
                        info_numeric := is_numeric_dtype (dtype s) |}).
Proof.
  apply (analyze_columns_content (loaded_with sales_profit) sales_profit).
  - reflexivity.
  - apply rectangular_sales_profit.
  - apply (bool_decide_unpack _). vm_compute. exact I.
Defined.

(* ================================================================= *)
(** ** Code generation and execution *)

(** C7: with no table loaded, [generate_chart] raises the no-data error
    and leaves the generator as it was. *)
Theorem generate_chart_no_data `{Unicode} {Cell Obj}
    (py_exec : str → list (Series Cell) → outcome (gmap str Obj) * list (Series Cell))
    (request : str) (g : ChartGenerator Cell) :
  data g = None →
  generate_chart py_exec request g = (Raise NoDataError, g).
Proof.
  intros Hnone. unfold generate_chart. rewrite Hnone. reflexivity.
Qed.

Lemma templates_lookup (chart_type : str) :
  (chart_type = lit "bar" → templates !! chart_type = Some bar_template) ∧
  (chart_type = lit "pie" → templates !! chart_type = Some pie_template) ∧
  (chart_type = lit "line" → templates !! chart_type = Some line_template) ∧
  (chart_type ∉ [lit "bar"; lit "pie"; lit "line"] → templates !! chart_type = None).
Proof.
  unfold templates. repeat split.
  - intros ->. by rewrite lookup_insert_eq.
  - intros ->. rewrite lookup_insert_ne by done. by rewrite lookup_insert_eq.
  - intros ->. rewrite !lookup_insert_ne by done. by rewrite lookup_insert_eq.
  - rewrite !not_elem_of_cons. intros (H1 & H2 & H3 & _).
    rewrite !lookup_insert_ne by done. apply lookup_empty.
Qed.

Lemma format_scripts (x y title : str) :
  let kwargs := <[lit "x" := x]> (<[lit "y" := y]> (<[lit "title" := title]>
                  (<[lit "x_label" := x]> (<[lit "y_label" := y]> ∅)))) in
  format bar_template kwargs = Ok (bar_script x y title) ∧
  format pie_template kwargs = Ok (pie_script x y title) ∧
  format line_template kwargs = Ok (line_script x y title).
Proof. repeat split; vm_compute; reflexivity. Qed.

Section GeneratorFacts.

Context `{Unicode} {Cell : Type}.
Implicit Types (d : list (Series Cell)) (g : ChartGenerator Cell).

(** [generate_chart_code] once the selector's pair is known: the template
    lookup and the substitution remain. *)
Lemma generate_chart_code_from_pair g (chart_type request : str) (x y : label) :
  extract_columns request g = (Ok (x, y), g) →
  generate_chart_code chart_type request g =
    (match templates !! chart_type with
     | Some template =>
         format template
           (<[lit "x" := label_str x]> (<[lit "y" := label_str y]> (<[lit "title" := request]>
              (<[lit "x_label" := label_str x]> (<[lit "y_label" := label_str y]> ∅)))))
     | None => Raise (KeyError (Str chart_type))
     end, g).
Proof.
  intros Hxy. unfold generate_chart_code, bind, call, dict_getitem. rewrite Hxy.
  cbn [fst snd]. by destruct (templates !! chart_type).
Qed.

Lemma generate_chart_code_supported g (chart_type request : str) (x y : label) :
  extract_columns request g = (Ok (x, y), g) →
  chart_type ∈ [lit "bar"; lit "pie"; lit "line"] →
  ∃ code, generate_chart_code chart_type request g = (Ok code, g).
Proof.
  intros Hxy Hkind. rewrite (generate_chart_code_from_pair g chart_type request x y Hxy).
  destruct (templates_lookup chart_type) as (Hbar & Hpie & Hline & _).
  destruct (format_scripts (label_str x) (label_str y) request) as (Fbar & Fpie & Fline).
  revert Hkind. rewrite !elem_of_cons. intros [Hc | [Hc | [Hc | Hc]]].
  - rewrite (Hbar Hc), Fbar. by eexists.
  - rewrite (Hpie Hc), Fpie. by eexists.
  - rewrite (Hline Hc), Fline. by eexists.
  - by apply elem_of_nil in Hc.
Qed.

Lemma generate_chart_code_unsupported g (chart_type request : str) (x y : label) :
  extract_columns request g = (Ok (x, y), g) →
  chart_type ∉ [lit "bar"; lit "pie"; lit "line"] →
  generate_chart_code chart_type request g = (Raise (UnsupportedChartTypeError chart_type), g).
Proof.
  intros Hxy Hkind. rewrite (generate_chart_code_from_pair g chart_type request x y Hxy).
  destruct (templates_lookup chart_type) as (_ & _ & _ & Hother).
  by rewrite (Hother Hkind).
Qed.

(** Over a loaded table with a column and string labels the selector
    returns a pair and leaves the generator as it was. *)
Lemma extract_columns_returns g d request :
  Loaded g d → columns d ≠ [] → Forall is_str (columns d) →
  ∃ x y, extract_columns request g = (Ok (x, y), g).
Proof.
  intros Hl Hne Hstr. rewrite (extract_columns_loaded g d request Hl).
  destruct (selection_total d request Hne Hstr) as (x & y & ->). by exists x, y.
Qed.

Lemma generate_chart_code_state g chart_type request :
  (generate_chart_code chart_type request g).2 = g.
Proof.
  unfold generate_chart_code, bind, call.
  pose proof (extract_columns_state g request) as Hs.
  destruct (extract_columns request g) as [[xy|e] g']; simpl in Hs; subst g'; [| done].
  by destruct (dict_getitem Str templates chart_type).
Qed.

End GeneratorFacts.

(** Code generation over a loaded table with at least one column, all
    columns named by strings: a script for bar, pie and line, the
    unsupported-chart-type error ([KeyError]) for scatter, histogram and
    any other type. *)
Theorem generate_chart_code_templates `{Unicode} {Cell} (g : ChartGenerator Cell) d
    (request : str) :
  Loaded g d → columns d ≠ [] → Forall is_str (columns d) →
  (∀ chart_type, chart_type ∈ [lit "bar"; lit "pie"; lit "line"] →
     ∃ code, generate_chart_code chart_type request g = (Ok code, g)) ∧
  (∀ chart_type, chart_type ∉ [lit "bar"; lit "pie"; lit "line"] →
     generate_chart_code chart_type request g =
       (Raise (UnsupportedChartTypeError chart_type), g)).
Proof.
  intros Hl Hne Hstr.
  destruct (extract_columns_returns g d request Hl Hne Hstr) as (x & y & Hxy). split.
  - intros chart_type Hkind. by eapply generate_chart_code_supported.
  - intros chart_type Hkind. by eapply generate_chart_code_unsupported.
Qed.

(** C6 at its failing input: over the table with no column, code
    generation raises the selector's [IndexError] for every chart type, the
    three that have a template included. *)
Theorem generate_chart_code_no_columns `{Unicode} (chart_type request : str) :
  generate_chart_code chart_type request (loaded_with no_columns) =
    (Raise (IndexError (lit "index 0 is out of bounds for axis 0 with size 0")),
     loaded_with no_columns).
Proof.
  unfold generate_chart_code, bind.
  rewrite (extract_columns_loaded (loaded_with no_columns) no_columns request)
    by apply loaded_with_Loaded.
  reflexivity.
Qed.

(** Unlike [generate_chart], the selector and the code generator have no
    guard for a missing table: before any load they raise
    [AttributeError] on [self.data.columns], for every chart type, also one
    without a template. *)
Theorem generate_chart_code_unloaded `{Unicode} {Cell} (g : ChartGenerator Cell)
    (chart_type request : str) :
  data g = None →
  extract_columns request g =
    (Raise (AttributeError (lit "'NoneType' object has no attribute 'columns'")), g) ∧
  generate_chart_code chart_type request g =
    (Raise (AttributeError (lit "'NoneType' object has no attribute 'columns'")), g).
Proof.
  intros Hnone.
  assert (extract_columns request g =
            (Raise (AttributeError (lit "'NoneType' object has no attribute 'columns'")), g)) as He.
  { unfold extract_columns, bind, self_data. by rewrite Hnone. }
  split; [done |]. unfold generate_chart_code, bind. by rewrite He.
Qed.

(** The script is the template with the texts inserted as they are: the
    selector's pair for the columns and the axis labels, the whole request
    for the title, nothing escaped. The pie script uses no axis label. *)
Theorem generate_chart_code_scripts `{Unicode} {Cell} (g : ChartGenerator Cell)
    (request : str) (x y : label) :
  extract_columns request g = (Ok (x, y), g) →
  generate_chart_code (lit "bar") request g =
    (Ok (bar_script (label_str x) (label_str y) request), g) ∧
  generate_chart_code (lit "pie") request g =
    (Ok (pie_script (label_str x) (label_str y) request), g) ∧
  generate_chart_code (lit "line") request g =
    (Ok (line_script (label_str x) (label_str y) request), g).
Proof.
  intros Hxy. destruct (format_scripts (label_str x) (label_str y) request) as (Hbar & Hpie & Hline).
  rewrite !(generate_chart_code_from_pair g _ request x y Hxy).
  destruct (templates_lookup (lit "bar")) as (Tbar & _).
  destruct (templates_lookup (lit "pie")) as (_ & Tpie & _).
  destruct (templates_lookup (lit "line")) as (_ & _ & Tline & _).
  rewrite (Tbar eq_refl), (Tpie eq_refl), (Tline eq_refl).
  by rewrite Hbar, Hpie, Hline.
Qed.

(** A request that classifies to scatter or histogram always fails over
    a loaded table with a column and string labels: [generate_chart] raises
    [KeyError] on the chart type from the template lookup, [exec] is never
    reached and the generator is left as it was. *)
Theorem generate_chart_unsupported `{Unicode} {Cell Obj}
    (py_exec : str → list (Series Cell) → outcome (gmap str Obj) * list (Series Cell))
    (g : ChartGenerator Cell) d (request : str) :
  Loaded g d → columns d ≠ [] → Forall is_str (columns d) →
  determine_chart_type request ∈ [lit "scatter"; lit "histogram"] →
  generate_chart py_exec request g =
    (Raise (UnsupportedChartTypeError (determine_chart_type request)), g).
Proof.
  intros Hl Hne Hstr Hkind.
  destruct (extract_columns_returns g d request Hl Hne Hstr) as (x & y & Hxy).
  unfold generate_chart. destruct Hl as [Hd Hi]. rewrite Hd. unfold bind.
  rewrite (generate_chart_code_unsupported g _ request x y Hxy); [done |].
  intros Hin.
  apply elem_of_cons in Hkind as [Hk | Hkind];
    [| apply elem_of_cons in Hkind as [Hk | Hkind]; [| by apply elem_of_nil in Hkind]];
    rewrite Hk in Hin;
    repeat (apply elem_of_cons in Hin as [Hin | Hin]; [discriminate Hin |]);
    by apply elem_of_nil in Hin.
Qed.

(** A table with a label that is not a string (a sheet with a numeric
    header) cannot be charted: the selector's comprehension calls [lower]
    on every label before any branch is taken, so the selector, the code
    generator for every chart type, and [generate_chart] raise
    [AttributeError] for every request, and leave the generator as it was. *)
Theorem extract_columns_non_str_label `{Unicode} {Cell Obj}
    (py_exec : str → list (Series Cell) → outcome (gmap str Obj) * list (Series Cell))
    (g : ChartGenerator Cell) d (chart_type request : str) names type_name text repr rest :
  data g = Some d →
  columns d = (Str <$> names) ++ NonStr type_name text repr :: rest →
  extract_columns request g = (Raise (no_attribute type_name "lower"), g) ∧
  generate_chart_code chart_type request g = (Raise (no_attribute type_name "lower"), g) ∧
  generate_chart py_exec request g = (Raise (no_attribute type_name "lower"), g).
Proof.
  intros Hd Hc.
  assert (extract_columns request g = (Raise (no_attribute type_name "lower"), g)) as He.
  { unfold extract_columns, bind, self_data, call. rewrite Hd.
    fold (found_in request d).
    by rewrite (found_in_non_str d request names type_name text repr rest Hc). }
  assert (∀ kind, generate_chart_code kind request g =
                    (Raise (no_attribute type_name "lower"), g)) as Hcode.
  { intros kind. unfold generate_chart_code, bind. by rewrite He. }
  split; [done |]. split; [done |].
  unfold generate_chart. rewrite Hd. unfold bind. by rewrite Hcode.
Qed.

Section GeneratorExamples.

#[local] Existing Instance latin1.

Lemma generate_chart_no_data_witness :
  generate_chart binds_nothing (lit "pie chart of sales") init = (Raise NoDataError, init).
Proof.
  apply (generate_chart_no_data binds_nothing (lit "pie chart of sales") init).
  reflexivity.
Defined.

Lemma generate_chart_code_templates_witness :
  (∃ code, generate_chart_code (lit "pie") (lit "pie chart of sales")
             (loaded_with region_sales) = (Ok code, loaded_with region_sales)) ∧
  generate_chart_code (lit "scatter") (lit "pie chart of sales") (loaded_with region_sales) =
    (Raise (UnsupportedChartTypeError (lit "scatter")), loaded_with region_sales).
Proof.
  destruct (generate_chart_code_templates (loaded_with region_sales) region_sales
              (lit "pie chart of sales")) as [Hscript Hnone].
  - split; reflexivity.
  - vm_compute. discriminate.
  - repeat constructor.
  - split.
    + apply Hscript. right. left.
    + apply Hnone. rewrite !not_elem_of_cons. repeat split; try discriminate.
      apply not_elem_of_nil.
Defined.

Lemma generate_chart_code_unloaded_witness :
  extract_columns (lit "scatter of sales") (init (Cell:=cell)) =
    (Raise (AttributeError (lit "'NoneType' object has no attribute 'columns'")), init) ∧
  generate_chart_code (lit "scatter") (lit "scatter of sales") (init (Cell:=cell)) =
    (Raise (AttributeError (lit "'NoneType' object has no attribute 'columns'")), init).
Proof.
  apply (generate_chart_code_unloaded (init (Cell:=cell)) (lit "scatter") (lit "scatter of sales")).
  reflexivity.
Defined.

Lemma generate_chart_code_scripts_witness :
  generate_chart_code (lit "bar") (lit "Bob's sales by region") (loaded_with region_sales) =
    (Ok (bar_script (lit "Region") (lit "Sales") (lit "Bob's sales by region")),
     loaded_with region_sales) ∧
  generate_chart_code (lit "pie") (lit "Bob's sales by region") (loaded_with region_sales) =
    (Ok (pie_script (lit "Region") (lit "Sales") (lit "Bob's sales by region")),
     loaded_with region_sales) ∧
  generate_chart_code (lit "line") (lit "Bob's sales by region") (loaded_with region_sales) =
    (Ok (line_script (lit "Region") (lit "Sales") (lit "Bob's sales by region")),
     loaded_with region_sales).
Proof.
  apply (generate_chart_code_scripts (loaded_with region_sales) (lit "Bob's sales by region")
           (Str (lit "Region")) (Str (lit "Sales"))).
  vm_compute. reflexivity.
Defined.

Lemma generate_chart_unsupported_witness :
  generate_chart binds_nothing (lit "distribution of sales") (loaded_with region_sales) =
    (Raise (UnsupportedChartTypeError (lit "histogram")), loaded_with region_sales).
Proof.
  assert (determine_chart_type (lit "distribution of sales") = lit "histogram") as Hkind
    by (vm_compute; reflexivity).
  rewrite <- Hkind.
  apply (generate_chart_unsupported binds_nothing (loaded_with region_sales) region_sales
           (lit "distribution of sales")).
  - split; reflexivity.
  - vm_compute. discriminate.
  - repeat constructor.
  - vm_compute. right. left.
Defined.

Lemma extract_columns_non_str_label_witness :
  extract_columns (lit "sales by region") (loaded_with year_sheet) =
    (Raise (AttributeError (lit "'int' object has no attribute 'lower'")),
     loaded_with year_sheet) ∧
  generate_chart_code (lit "bar") (lit "sales by region") (loaded_with year_sheet) =
    (Raise (AttributeError (lit "'int' object has no attribute 'lower'")),
     loaded_with year_sheet) ∧
  generate_chart binds_nothing (lit "sales by region") (loaded_with year_sheet) =
    (Raise (AttributeError (lit "'int' object has no attribute 'lower'")),
     loaded_with year_sheet).
Proof.
  apply (extract_columns_non_str_label binds_nothing (loaded_with year_sheet) year_sheet
           (lit "bar") (lit "sales by region")
           [lit "Region"] (lit "int") (lit "2023") (lit "2023") []).
  - reflexivity.
  - reflexivity.
Defined.

(* ================================================================= *)
(** ** The scenarios of the specification *)

(** Columns [Region, Sales], "Show sales by region as a bar chart": the
    type is bar, both labels are matched, and the bar template is filled
    with x = Region, y = Sales and the request as title. *)
Example scenario_bar_chart :
  determine_chart_type (lit "Show sales by region as a bar chart") = lit "bar" ∧
  generate_chart_code (lit "bar") (lit "Show sales by region as a bar chart")
    (loaded_with region_sales) =
  (Ok (lit "fig, ax = plt.subplots(figsize=(10,6))
ax.bar(data['Region'], data['Sales'])
ax.set_title('Show sales by region as a bar chart')
ax.set_xlabel('Region')
ax.set_ylabel('Sales')
plt.xticks(rotation=45)
plt.tight_layout()
# Removed the return statement"), loaded_with region_sales).
Proof. split; vm_compute; reflexivity. Qed.

(** "pie chart of sales" over the same table: pie has priority, and the
    single match Sales is paired with the first numeric column, Sales. *)
Example scenario_pie_chart :
  determine_chart_type (lit "pie chart of sales") = lit "pie" ∧
  extract_columns (lit "pie chart of sales") (loaded_with region_sales) =
    (Ok (Str (lit "Sales"), Str (lit "Sales")), loaded_with region_sales).
Proof. split; vm_compute; reflexivity. Qed.

(** No chart keyword and no label, three numeric columns: the type is bar
    and the selector returns the first column twice over, as x and as the
    first numeric column. *)
Example scenario_defaults :
  let d := [column "a" Int64 [Num 1]; column "b" Float64 [Num 2]; column "c" Int64 [Num 3]] in
  determine_chart_type (lit "draw something nice") = lit "bar" ∧
  extract_columns (lit "draw something nice") (loaded_with d) =
    (Ok (Str (lit "a"), Str (lit "a")), loaded_with d).
Proof. split; vm_compute; reflexivity. Qed.

End GeneratorExamples.

(* ================================================================= *)
(** ** The page *)

Section PageFacts.

Context `{Unicode} {Cell Obj : Type}.
Variable read_csv read_excel : source → outcome (list (Series Cell)).
Variable py_exec : str → list (Series Cell) → outcome (gmap str Obj) * list (Series Cell).
Variable truthy : Obj → bool.
Implicit Types (g : ChartGenerator Cell) (s : session Cell) (w : widgets).

Lemma analyze_columns_ok_data g g' :
  _analyze_columns g = (Ok tt, g') → ∃ d, data g' = Some d.
Proof.
  intros Ha. destruct (data g) as [d|] eqn:Hd.
  - exists d. pose proof (analyze_columns_data g) as Hg. rewrite Ha in Hg. simpl in Hg. congruence.
  - rewrite (analyze_columns_none g Hd) in Ha. discriminate.
Qed.

Lemma load_from_outcome name src g :
  (∃ g' d, load_from read_csv read_excel name src g = (Ok true, g') ∧ data g' = Some d) ∨
  (∃ m g', load_from read_csv read_excel name src g = (Raise (ValueError m), g')).
Proof.
  assert (Hafter : ∀ g1,
            (∃ g' d, match _analyze_columns g1 with
                     | (Ok _, g2) => (Ok true, g2)
                     | (Raise e, g2) =>
                         (Raise (ValueError (lit "Error loading file: " ++ exn_str e)), g2)
                     end = (Ok true, g') ∧ data g' = Some d) ∨
            (∃ m g', match _analyze_columns g1 with
                     | (Ok _, g2) => (Ok true, g2)
                     | (Raise e, g2) =>
                         (Raise (ValueError (lit "Error loading file: " ++ exn_str e)), g2)
                     end = (Raise (ValueError m), g'))).
  { intros g1. destruct (_analyze_columns g1) as [[[]|e] g2] eqn:Ha; [| right; eauto].
    left. destruct (analyze_columns_ok_data g1 g2 Ha) as [d Hd]. eauto. }
  unfold load_from, try_except, bind, call, set_data, ret, raise.
  destruct (endswith name (lit ".csv")).
  - destruct (read_csv src) as [d|e]; [| right; eauto].
    specialize (Hafter {| data := Some d; column_info := column_info g |}).
    by destruct (_analyze_columns _) as [[[]|e] g2].
  - destruct (endswith name (lit ".xls") || endswith name (lit ".xlsx")).
    + destruct (read_excel src) as [d|e]; [| right; eauto].
      specialize (Hafter {| data := Some d; column_info := column_info g |}).
      by destruct (_analyze_columns _) as [[[]|e] g2].
    + specialize (Hafter g). by destruct (_analyze_columns g) as [[[]|e] g2].
Qed.

Lemma sidebar_no_upload w s :
  uploaded_file w = None → sidebar (Obj:=Obj) read_csv read_excel w s = (Ok tt, s, [SidebarHeader]).
Proof. intros Hw. unfold sidebar, pbind, emit, pret. by rewrite Hw. Qed.

Lemma sidebar_loaded w s g f g' d :
  generator s = Some g → uploaded_file w = Some f →
  load_data_from_upload read_csv read_excel f g = (Ok true, g') → data g' = Some d →
  sidebar (Obj:=Obj) read_csv read_excel w s =
    (Ok tt, with_generator s g',
     [SidebarHeader; SidebarSuccess (lit "Data loaded successfully!");
      SidebarPreviewCaption; SidebarDataframe (df_head 5 d);
      SidebarColumnsCaption; SidebarTexts (column_lines (column_info g'))]).
Proof.
  intros Hg Hw Hload Hd.
  unfold sidebar, pbind, ptry, emit, pret, on_generator. rewrite Hw, Hg, Hload. simpl.
  unfold get_data_preview, get_column_info, bind, self_data, self_column_info, ret.
  rewrite Hd. simpl. unfold with_generator. simpl. by destruct g'.
Qed.

Lemma sidebar_failed w s g f m g' :
  generator s = Some g → uploaded_file w = Some f →
  load_data_from_upload read_csv read_excel f g = (Raise (ValueError m), g') →
  sidebar (Obj:=Obj) read_csv read_excel w s =
    (Ok tt, with_generator s g', [SidebarHeader; SidebarError m]).
Proof.
  intros Hg Hw Hload.
  unfold sidebar, pbind, ptry, emit, pret, on_generator. by rewrite Hw, Hg, Hload.
Qed.

Lemma sidebar_completes w s g :
  generator s = Some g →
  ∃ g' shown, sidebar (Obj:=Obj) read_csv read_excel w s = (Ok tt, with_generator s g', shown) ∧
              (uploaded_file w = None → g' = g ∧ shown = [SidebarHeader]).
Proof.
  intros Hg. destruct (uploaded_file w) as [f|] eqn:Hw.
  - destruct (load_from_outcome (upload_name f) (Buffer f) g)
      as [(g' & d & Hload & Hd) | (m & g' & Hload)].
    + exists g'. eexists. split; [by eapply sidebar_loaded | done].
    + exists g'. eexists. split; [by eapply sidebar_failed | done].
  - exists g. eexists. split; [| done]. rewrite (sidebar_no_upload w s Hw).
    unfold with_generator. destruct s. simpl in *. by rewrite Hg.
Qed.

(** The button's block when [exec] is not reached: no click, an empty
    request, or no table in the session. *)
Lemma generate_button_idle w s g r :
  generator s = Some g → chart_request s = Some r →
  button w && str_truth r = false ∨ data g = None →
  generate_button py_exec truthy w s =
    (Ok tt, s,
     if button w && str_truth r then [Error (lit "Please upload a data file first!")] else []).
Proof.
  intros Hg Hr Hidle. destruct s as [og oc os]. simpl in Hg, Hr. subst og oc.
  unfold generate_button. destruct (button w); [| done].
  unfold pbind, the_chart_request, no_data, ptry, emit, pret, on_generator. simpl.
  destruct (str_truth r); [| done]. simpl.
  destruct Hidle as [Hidle | Hd]; [done |].
  by rewrite bool_decide_eq_true_2 by done.
Qed.

Lemma code_box_completes w s g r :
  generator s = Some g → chart_request s = Some r →
  ∃ shown,
    code_box w s =
      (Ok tt, {| generator := Some g; chart_request := Some r; show_code := Some (checkbox w) |},
       shown : list (ui_event Cell Obj)) ∧
    (data g = None →
     shown = if checkbox w && str_truth r
             then [Error (lit "Couldn't show code: 'NoneType' object has no attribute 'columns'")]
             else []).
Proof.
  intros Hg Hr. destruct s as [og oc os]. simpl in Hg, Hr. subst og oc.
  unfold code_box.
  unfold pbind, set_show_code, the_show_code, the_chart_request, ptry, emit, pret, on_generator, ret.
  simpl. destruct (checkbox w); [| by eexists].
  simpl. destruct (str_truth r); [| by eexists]. simpl.
  pose proof (generate_chart_code_state g (determine_chart_type r) r) as Hs.
  destruct (generate_chart_code (determine_chart_type r) r g) as [[code|e] g1] eqn:Hc;
    simpl in Hs; subst g1.
  - eexists. split; [done |]. intros Hd. exfalso.
    unfold generate_chart_code, extract_columns, bind, self_data in Hc. by rewrite Hd in Hc.
  - assert (is_exception e = true) as -> by (by destruct e).
    eexists. split; [done |]. intros Hd.
    unfold generate_chart_code, extract_columns, bind, self_data in Hc. rewrite Hd in Hc.
    by injection Hc as <-.
Qed.

(** A run that does not reach [exec]. *)
Lemma main_run w s :
  ∃ g' shown_sidebar shown_code,
    (uploaded_file w = None →
     g' = default init (generator s) ∧ shown_sidebar = [SidebarHeader]) ∧
    (data g' = None →
     shown_code = (if checkbox w && str_truth (text_input w)
                   then [Error (lit "Couldn't show code: 'NoneType' object has no attribute 'columns'")]
                   else [])) ∧
    (button w && str_truth (text_input w) = false ∨ data g' = None →
     main read_csv read_excel py_exec truthy w s =
       (Ok tt,
        {| generator := Some g'; chart_request := Some (text_input w);
           show_code := Some (checkbox w) |},
        shown_sidebar ++ [Title; Markdown] ++
        (if button w && str_truth (text_input w)
         then [Error (lit "Please upload a data file first!")] else []) ++
        shown_code)).
Proof.
  set (s0 := {| generator := Some (default init (generator s));
                chart_request := Some (default [] (chart_request s));
                show_code := Some (default false (show_code s)) |}).
  destruct (sidebar_completes w s0 (default init (generator s)) eq_refl)
    as (g' & shown1 & Hside & Hkeep).
  set (s1 := {| generator := Some g'; chart_request := Some (text_input w);
                show_code := Some (default false (show_code s)) |}).
  destruct (code_box_completes w s1 g' (text_input w) eq_refl eq_refl)
    as (shown3 & Hcode & Hc).
  exists g', shown1, shown3. split; [done |]. split; [done |].
  intros Hidle.
  pose proof (generate_button_idle w s1 g' (text_input w) eq_refl eq_refl Hidle) as Hbutton.
  unfold main, pbind, initialize_session_state, emit, set_chart_request.
  fold s0. rewrite Hside. cbn -[generate_button code_box]. fold s1.
  rewrite Hbutton, Hcode. done.
Qed.

End PageFacts.

(** A run of the page in which the button is not clicked never raises:
    whatever the other widgets return and whatever the session holds,
    [main] completes, a failed upload being shown in the sidebar and a
    failure of code generation in the code box, and the session afterwards
    holds a generator, the text of the request box and the state of the
    code box. *)
Theorem main_completes `{Unicode} {Cell Obj}
    (read_csv read_excel : source → outcome (list (Series Cell)))
    (py_exec : str → list (Series Cell) → outcome (gmap str Obj) * list (Series Cell))
    (truthy : Obj → bool) (w : widgets) (s : session Cell) :
  button w = false →
  ∃ g' shown,
    main read_csv read_excel py_exec truthy w s =
      (Ok tt,
       {| generator := Some g'; chart_request := Some (text_input w);
          show_code := Some (checkbox w) |},
       shown).
Proof.
  intros Hb.
  destruct (main_run read_csv read_excel py_exec truthy w s)
    as (g' & shown1 & shown3 & _ & _ & Hmain).
  exists g'. eexists. apply Hmain. left. by rewrite Hb.
Qed.

(** Before any upload: with no table in the session and no uploaded file,
    a click on the button with a non-empty request shows "Please upload a
    data file first!" and never calls the generator, while the code box,
    which has no such guard, shows the raw [AttributeError] of the
    selector; nothing else is displayed but the captions. *)
Theorem main_before_upload `{Unicode} {Cell Obj}
    (read_csv read_excel : source → outcome (list (Series Cell)))
    (py_exec : str → list (Series Cell) → outcome (gmap str Obj) * list (Series Cell))
    (truthy : Obj → bool) (w : widgets) (s : session Cell) :
  stored_data s = None → uploaded_file w = None →
  main read_csv read_excel py_exec truthy w s =
    (Ok tt,
     {| generator := Some (default init (generator s));
        chart_request := Some (text_input w);
        show_code := Some (checkbox w) |},
     [SidebarHeader; Title; Markdown] ++
     (if button w && str_truth (text_input w)
      then [Error (lit "Please upload a data file first!")] else []) ++
     (if checkbox w && str_truth (text_input w)
      then [Error (lit "Couldn't show code: 'NoneType' object has no attribute 'columns'")]
      else [])).
Proof.
  intros Hdata Hw.
  destruct (main_run read_csv read_excel py_exec truthy w s)
    as (g' & shown1 & shown3 & Hkeep & Hnone & Hmain).
  destruct (Hkeep Hw) as [-> ->].
  assert (data (default init (generator s)) = None) as Hd.
  { unfold stored_data in Hdata. by destruct (generator s). }
  rewrite (Hnone Hd) in Hmain. apply Hmain. by right.
Qed.

(** An upload shows either the success message with the preview of the
    first five rows and the column lines of the table just loaded, or the
    loader's error message alone; never both, and never an exception. *)
Theorem sidebar_upload {Cell Obj}
    (read_csv read_excel : source → outcome (list (Series Cell)))
    (w : widgets) (s : session Cell) g f :
  generator s = Some g → uploaded_file w = Some f →
  (∃ g' d,
     load_data_from_upload read_csv read_excel f g = (Ok true, g') ∧ data g' = Some d ∧
     sidebar (Obj:=Obj) read_csv read_excel w s =
       (Ok tt, with_generator s g',
        [SidebarHeader; SidebarSuccess (lit "Data loaded successfully!");
         SidebarPreviewCaption; SidebarDataframe (df_head 5 d);
         SidebarColumnsCaption; SidebarTexts (column_lines (column_info g'))])) ∨
  (∃ g' m,
     load_data_from_upload read_csv read_excel f g = (Raise (ValueError m), g') ∧
     sidebar (Obj:=Obj) read_csv read_excel w s =
       (Ok tt, with_generator s g', [SidebarHeader; SidebarError m])).
Proof.
  intros Hg Hw.
  destruct (load_from_outcome read_csv read_excel (upload_name f) (Buffer f) g)
    as [(g' & d & Hload & Hd) | (m & g' & Hload)].
  - left. exists g', d. split; [done |]. split; [done |]. by eapply sidebar_loaded.
  - right. exists g', m. split; [done |]. by eapply sidebar_failed.
Qed.

Section PageExamples.

#[local] Existing Instance latin1.

(** No click: the upload cannot be parsed and the code box is ticked. *)
Lemma main_completes_witness :
  ∃ g' shown,
    main unreadable empty_sheet binds_nothing always_true
      {| uploaded_file := Some {| upload_name := lit "broken.csv"; upload_bytes := [] |};
         text_input := lit "pie chart of sales"; button := false; checkbox := true |}
      empty_session =
      (Ok tt,
       {| generator := Some g'; chart_request := Some (lit "pie chart of sales");
          show_code := Some true |},
       shown).
Proof.
  apply (main_completes unreadable empty_sheet binds_nothing always_true
           {| uploaded_file := Some {| upload_name := lit "broken.csv"; upload_bytes := [] |};
              text_input := lit "pie chart of sales"; button := false; checkbox := true |}
           empty_session).
  reflexivity.
Defined.

Lemma main_before_upload_witness :
  main unreadable empty_sheet binds_nothing always_true
    {| uploaded_file := None; text_input := lit "bar chart of sales";
       button := true; checkbox := true |} empty_session =
    (Ok tt,
     {| generator := Some (default init (generator (empty_session (Cell:=cell))));
        chart_request := Some (lit "bar chart of sales");
        show_code := Some true |},
     [SidebarHeader; Title; Markdown] ++
     (if true && str_truth (lit "bar chart of sales")
      then [Error (lit "Please upload a data file first!")] else []) ++
     (if true && str_truth (lit "bar chart of sales")
      then [Error (lit "Couldn't show code: 'NoneType' object has no attribute 'columns'")]
      else [])).
Proof.
  apply (main_before_upload unreadable empty_sheet binds_nothing always_true
           {| uploaded_file := None; text_input := lit "bar chart of sales";
              button := true; checkbox := true |} empty_session).
  - reflexivity.
  - reflexivity.
Defined.

Lemma sidebar_upload_witness :
  let f := {| upload_name := lit "q3.csv"; upload_bytes := [] |} in
  let w := {| uploaded_file := Some f; text_input := []; button := false; checkbox := false |} in
  let s := {| generator := Some init; chart_request := Some []; show_code := Some false |} in
  (∃ g' d,
     load_data_from_upload reads_region_sales empty_sheet f init = (Ok true, g') ∧
     data g' = Some d ∧
     sidebar (Obj:=unit) reads_region_sales empty_sheet w s =
       (Ok tt, with_generator s g',
        [SidebarHeader; SidebarSuccess (lit "Data loaded successfully!");
         SidebarPreviewCaption; SidebarDataframe (df_head 5 d);
         SidebarColumnsCaption; SidebarTexts (column_lines (column_info g'))])) ∨
  (∃ g' m,
     load_data_from_upload reads_region_sales empty_sheet f init = (Raise (ValueError m), g') ∧
     sidebar (Obj:=unit) reads_region_sales empty_sheet w s =
       (Ok tt, with_generator s g', [SidebarHeader; SidebarError m])).
Proof.
  intros f w s.
  apply (sidebar_upload reads_region_sales empty_sheet w s init f).
  - reflexivity.
  - reflexivity.
Defined.

End PageExamples.
